(** * Profanity: chat window buffers and the tray notifier

    A shallow embedding of [src/ui/window.c] (the per-conversation window,
    its behaviour table and its line renderers) and of [src/tray.c] (the
    desktop tray icon refresher), with the properties the specification
    states about them.

    Layout of the development:
    - [CString]  : the C string functions the code calls (strcmp, strncmp,
                   pointer advance, printf-style formatting);
    - [GLib]     : g_strcmp0, GTimeVal, GDateTime and its formatting;
    - [Curses]   : the pad (WINDOW) the renderers write to, the screen and
                   prefresh;
    - [Window]   : window.c;
    - [Tray]     : tray.c;
    - the theorems, one per specification claim. *)

From Stdlib Require Import ZArith List String Ascii Bool Lia DecimalString.
Import ListNotations.

Local Open Scope string_scope.
Local Open Scope Z_scope.

(* ================================================================= *)
(** ** C strings *)

Module CString.

(** The newline character, written [\n] in the C formats. *)
Definition nl : string := String "010" EmptyString.

(** A byte read as [unsigned char], the way strcmp compares. *)
Definition uchar (c : ascii) : Z := Z.of_N (N_of_ascii c).

(** strcmp. A C string is its characters up to the terminating NUL: the
    end of the Rocq string stands for the NUL, which compares below
    every character of a string. C fixes only the sign of the result,
    so the model returns -1, 0 or 1. *)
Fixpoint strcmp (s1 s2 : string) : Z :=
  match s1, s2 with
  | EmptyString, EmptyString => 0
  | EmptyString, String _ _ => -1
  | String _ _, EmptyString => 1
  | String c1 r1, String c2 r2 =>
      if Ascii.eqb c1 c2 then strcmp r1 r2
      else if uchar c1 <? uchar c2 then -1 else 1
  end.

(** strncmp: as strcmp, over at most [n] characters. *)
Fixpoint strncmp (s1 s2 : string) (n : nat) {struct n} : Z :=
  match n with
  | O => 0
  | S n' =>
      match s1, s2 with
      | EmptyString, EmptyString => 0
      | EmptyString, String _ _ => -1
      | String _ _, EmptyString => 1
      | String c1 r1, String c2 r2 =>
          if Ascii.eqb c1 c2 then strncmp r1 r2 n'
          else if uchar c1 <? uchar c2 then -1 else 1
      end
  end.

(** [s + n] on a [char *]: the string that starts [n] characters in.
    The code only forms it after strncmp found [n] equal characters, so
    the pointer stays inside the string; past the end the model gives
    the empty string. *)
Fixpoint ptr_add (s : string) (n : nat) {struct n} : string :=
  match n with
  | O => s
  | S n' =>
      match s with
      | EmptyString => EmptyString
      | String _ r => ptr_add r n'
      end
  end.

(** The variadic arguments of a printf-style call. A [%s] argument is a
    [char *] and may be NULL. *)
Inductive arg : Type :=
| ArgS (s : option string)
| ArgC (c : ascii)
| ArgD (d : Z).

(** [%d] *)
Definition dec (z : Z) : string := NilZero.string_of_int (Z.to_int z).

(** One conversion. glibc prints a NULL [%s] argument as "(null)"; an
    argument of the wrong type is undefined in C and prints nothing
    here. *)
Definition conv (k : ascii) (a : arg) : string :=
  match a with
  | ArgS (Some s) => if Ascii.eqb k "s" then s else ""
  | ArgS None => if Ascii.eqb k "s" then "(null)" else ""
  | ArgC c => if Ascii.eqb k "c" then String c "" else ""
  | ArgD d => if Ascii.eqb k "d" then dec d else ""
  end.

(** The formatting of printf, for the conversions the code uses
    ([%s], [%c], [%d]) and [%%]. *)
Fixpoint sprintf (fmt : string) (args : list arg) : string :=
  match fmt with
  | EmptyString => EmptyString
  | String c rest =>
      if Ascii.eqb c "%" then
        match rest with
        | EmptyString => String c EmptyString
        | String k rest' =>
            if Ascii.eqb k "%" then String k (sprintf rest' args)
            else
              match args with
              | a :: args' => conv k a ++ sprintf rest' args'
              | [] => sprintf rest' []
              end
        end
      else String c (sprintf rest args)
  end.

End CString.

(* ================================================================= *)
(** ** GLib *)

Module GLib.
Import CString.

(** g_strcmp0: strcmp that accepts NULL, NULL sorting before any
    string. *)
Definition g_strcmp0 (str1 str2 : option string) : Z :=
  match str1, str2 with
  | None, None => 0
  | None, Some _ => -1
  | Some _, None => 1
  | Some a, Some b => strcmp a b
  end.

(** GTimeSpan is a count of microseconds. *)
Definition G_TIME_SPAN_SECOND : Z := 1000000.
Definition G_TIME_SPAN_MINUTE : Z := 60000000.
Definition G_TIME_SPAN_HOUR : Z := 3600000000.

Record GTimeVal : Type := { tv_sec : Z; tv_usec : Z }.

(** A GDateTime: an instant (microseconds since the Unix epoch, UTC)
    seen in a time zone (seconds east of UTC). *)
Record GDateTime : Type := { dt_instant : Z; dt_utc_offset : Z }.

Definition g_date_time_new_from_timeval_utc (tv : GTimeVal) : GDateTime :=
  {| dt_instant := tv_sec tv * 1000000 + tv_usec tv; dt_utc_offset := 0 |}.

(** The same instant seen in the zone [offset] seconds east of UTC
    (g_date_time_to_timezone; g_date_time_to_local when [offset] is the
    local zone's). window.c does not call it. *)
Definition g_date_time_to_timezone (dt : GDateTime) (offset : Z) : GDateTime :=
  {| dt_instant := dt_instant dt; dt_utc_offset := offset |}.

Definition g_date_time_difference (end_ begin_ : GDateTime) : Z :=
  dt_instant end_ - dt_instant begin_.

(** Seconds into the day, on the wall clock of the GDateTime's zone. *)
Definition second_of_day (dt : GDateTime) : Z :=
  (dt_instant dt / 1000000 + dt_utc_offset dt) mod 86400.

Definition two_digits (n : Z) : string :=
  if n <? 10 then "0" ++ dec n else dec n.

Definition time_field (k : ascii) (dt : GDateTime) : string :=
  let s := second_of_day dt in
  if Ascii.eqb k "H" then two_digits (s / 3600)
  else if Ascii.eqb k "M" then two_digits (s mod 3600 / 60)
  else if Ascii.eqb k "S" then two_digits (s mod 60)
  else "".

(** g_date_time_format, for the conversions [%H], [%M], [%S]. *)
Fixpoint g_date_time_format (dt : GDateTime) (fmt : string) : string :=
  match fmt with
  | EmptyString => EmptyString
  | String c rest =>
      if Ascii.eqb c "%" then
        match rest with
        | EmptyString => String c EmptyString
        | String k rest' => time_field k dt ++ g_date_time_format dt rest'
        end
      else String c (g_date_time_format dt rest)
  end.

End GLib.

(* ================================================================= *)
(** ** The curses pad and the screen *)

Module Curses.
Import CString.

(** Modelled from the spec: [config/theme.h], which defines the
    [COLOUR_*] macros, is not among the sources. The specification
    speaks of one distinct attribute per theme item, so an attribute
    is the name of the macro the code passes to wattron and wattroff;
    these are the macros window.c names. *)
Inductive attr_t : Type :=
| COLOUR_TEXT
| COLOUR_TIME
| COLOUR_ONLINE
| COLOUR_AWAY
| COLOUR_CHAT
| COLOUR_DND
| COLOUR_XA
| COLOUR_OFFLINE
| COLOUR_THEM.

Definition attr_eq_dec (a b : attr_t) : {a = b} + {a <> b}.
Proof. decide equality. Defined.

(** A character as the pad holds it: the character and the attributes
    that were switched on when it was written. *)
Definition cell : Type := (ascii * list attr_t)%type.

(** A pad. Of the curses WINDOW the model keeps the size, the
    background, the scrollok flag, the attributes currently switched
    on, and everything that was written, in writing order. Where on the
    pad a character lands (wrapping, scrolling) is left to the library:
    see [pad_cell] below. *)
Record WINDOW : Type := {
  w_maxy : Z;
  w_maxx : Z;
  w_bkgd : option attr_t;
  w_scrollok : bool;
  w_attrs : list attr_t;
  w_out : list cell
}.

Definition newpad (nlines ncols : Z) : WINDOW :=
  {| w_maxy := nlines - 1; w_maxx := ncols - 1; w_bkgd := None;
     w_scrollok := false; w_attrs := []; w_out := [] |}.

(** A drawing call: it updates the pad it is given. All of them return
    an int the code ignores. *)
Definition draw : Type := WINDOW -> WINDOW.

Definition seq (a b : draw) : draw := fun w => b (a w).

Definition wbkgd (a : attr_t) : draw := fun w =>
  {| w_maxy := w_maxy w; w_maxx := w_maxx w; w_bkgd := Some a;
     w_scrollok := w_scrollok w; w_attrs := w_attrs w; w_out := w_out w |}.

Definition scrollok (b : bool) : draw := fun w =>
  {| w_maxy := w_maxy w; w_maxx := w_maxx w; w_bkgd := w_bkgd w;
     w_scrollok := b; w_attrs := w_attrs w; w_out := w_out w |}.

Definition set_attrs (l : list attr_t) : draw := fun w =>
  {| w_maxy := w_maxy w; w_maxx := w_maxx w; w_bkgd := w_bkgd w;
     w_scrollok := w_scrollok w; w_attrs := l; w_out := w_out w |}.

(** The attributes switched on are kept as a list of names without
    repeats: wattron puts a name in, wattroff takes it out. *)
Definition wattron (a : attr_t) : draw := fun w =>
  set_attrs (a :: remove attr_eq_dec a (w_attrs w)) w.

Definition wattroff (a : attr_t) : draw := fun w =>
  set_attrs (remove attr_eq_dec a (w_attrs w)) w.

(** The cells a string makes when written under attributes [l]. *)
Definition paint (l : list attr_t) (s : string) : list cell :=
  map (fun c => (c, l)) (list_ascii_of_string s).

Definition waddstr (s : string) : draw := fun w =>
  {| w_maxy := w_maxy w; w_maxx := w_maxx w; w_bkgd := w_bkgd w;
     w_scrollok := w_scrollok w; w_attrs := w_attrs w;
     w_out := w_out w ++ paint (w_attrs w) s |}.

Definition wprintw (fmt : string) (args : list arg) : draw :=
  waddstr (sprintf fmt args).

(** The characters written, without their attributes. *)
Definition text_of (l : list cell) : string :=
  string_of_list_ascii (map fst l).

(** The terminal screen: its size and what each position shows. *)
Record SCREEN : Type := {
  scr_lines : Z;
  scr_cols : Z;
  scr_cell : Z -> Z -> cell
}.

Section Layout.

(** The character curses holds at a (row, column) of a pad, given
    what was written to it. *)
Variable pad_cell : WINDOW -> Z -> Z -> cell.

(** prefresh, after the curses manual: the rectangle of the pad whose
    upper left corner is (pminrow, pmincol) is shown in the screen
    rectangle (sminrow, smincol)-(smaxrow, smaxcol). Negative
    corners count as zero, the rectangle is trimmed to the pad, and
    a rectangle that is empty or leaves the screen is an error that
    shows nothing. *)
Definition prefresh (pad : WINDOW)
    (pminrow pmincol sminrow smincol smaxrow smaxcol : Z)
    (scr : SCREEN) : SCREEN :=
  let pminrow := Z.max 0 pminrow in
  let pmincol := Z.max 0 pmincol in
  let sminrow := Z.max 0 sminrow in
  let smincol := Z.max 0 smincol in
  let pmaxrow := pminrow + smaxrow - sminrow in
  let pmaxcol := pmincol + smaxcol - smincol in
  let smaxrow :=
    if pmaxrow >? w_maxy pad then smaxrow - (pmaxrow - w_maxy pad)
    else smaxrow in
  let smaxcol :=
    if pmaxcol >? w_maxx pad then smaxcol - (pmaxcol - w_maxx pad)
    else smaxcol in
  if (smaxrow >=? scr_lines scr) || (smaxcol >=? scr_cols scr)
     || (sminrow >? smaxrow) || (smincol >? smaxcol)
  then scr
  else
    {| scr_lines := scr_lines scr;
       scr_cols := scr_cols scr;
       scr_cell := fun r c =>
         if (sminrow <=? r) && (r <=? smaxrow)
            && (smincol <=? c) && (c <=? smaxcol)
         then pad_cell pad (pminrow + (r - sminrow)) (pmincol + (c - smincol))
         else scr_cell scr r c |}.

End Layout.

End Curses.

Notation "a ;; b" := (Curses.seq a b) (at level 61, right associativity).

(* ================================================================= *)
(** ** window.c *)

Module Window.
Import CString GLib Curses.

(** Conversion of an integer to a signed type of [bits] bits, wrapping
    around, and the two types the idle arithmetic uses. *)
Definition wrap_signed (bits z : Z) : Z :=
  (z + 2 ^ (bits - 1)) mod 2 ^ bits - 2 ^ (bits - 1).
Definition to_int (z : Z) : Z := wrap_signed 32 z.
Definition to_gint64 (z : Z) : Z := wrap_signed 64 z.

(** A contact, through the accessors of contact.h the renderer calls;
    every string of a contact may be NULL and so may its last
    activity. *)
Record PContact : Type := {
  p_contact_barejid : option string;
  p_contact_name : option string;
  p_contact_presence : option string;
  p_contact_status : option string;
  p_contact_last_activity : option GDateTime
}.

(** The functions a window's behaviour table can point to. *)
Inductive print_time_fn : Type := Fn_win_print_time.
Inductive print_line_fn : Type := Fn_win_print_line.
Inductive refresh_win_fn : Type := Fn_win_refresh.
Inductive presence_colour_fn : Type :=
| Fn_win_presence_colour_on
| Fn_win_presence_colour_off.
Inductive show_contact_fn : Type := Fn_win_show_contact.
Inductive handle_error_message_fn : Type :=
| Fn_default_handle_error_message
| Fn_muc_handle_error_message.
Inductive print_incoming_message_fn : Type := Fn_print_incoming_message.

(** struct prof_win_t, with the fields win_create fills in; a function
    pointer that may be NULL is an option. [type] holds a win_type_t,
    an enum and so an integer. *)
Record ProfWin : Type := {
  from : string;
  win : WINDOW;
  y_pos : Z;
  paged : Z;
  unread : Z;
  history_shown : Z;
  type : Z;
  print_time : print_time_fn;
  print_line : print_line_fn;
  refresh_win : refresh_win_fn;
  presence_colour_on : presence_colour_fn;
  presence_colour_off : presence_colour_fn;
  show_contact : show_contact_fn;
  handle_error_message : handle_error_message_fn;
  print_incoming_message : option print_incoming_message_fn
}.

(** A drawing call on [self->win]: only the pad of the window changes. *)
Definition on_win (self : ProfWin) (d : draw) : ProfWin :=
  {| from := from self;
     win := d (win self);
     y_pos := y_pos self;
     paged := paged self;
     unread := unread self;
     history_shown := history_shown self;
     type := type self;
     print_time := print_time self;
     print_line := print_line self;
     refresh_win := refresh_win self;
     presence_colour_on := presence_colour_on self;
     presence_colour_off := presence_colour_off self;
     show_contact := show_contact self;
     handle_error_message := handle_error_message self;
     print_incoming_message := print_incoming_message self |}.

Section Create.

(** The enumerators of win_type_t and PAD_SIZE come from ui/window.h,
    which is not among the sources: they are parameters. *)
Variables WIN_CONSOLE WIN_CHAT WIN_MUC WIN_PRIVATE WIN_DUCK : Z.
Variable PAD_SIZE : Z.

(** [table] is the pair of entries (handle_error_message,
    print_incoming_message) the switch on the type assigns. The case
    labels of a C switch are pairwise distinct, so testing them in
    the order they are written is the switch. *)
Definition win_create (title : string) (cols : Z) (type_ : Z) : ProfWin :=
  let new_win_win := wbkgd COLOUR_TEXT (newpad PAD_SIZE cols) in
  let table :=
    if type_ =? WIN_CONSOLE then
      (Fn_default_handle_error_message, None)
    else if type_ =? WIN_CHAT then
      (Fn_default_handle_error_message, Some Fn_print_incoming_message)
    else if type_ =? WIN_MUC then
      (Fn_muc_handle_error_message, None)
    else if type_ =? WIN_PRIVATE then
      (Fn_default_handle_error_message, Some Fn_print_incoming_message)
    else if type_ =? WIN_DUCK then
      (Fn_default_handle_error_message, None)
    else
      (Fn_default_handle_error_message, None) in
  {| from := title;
     win := scrollok true new_win_win;
     y_pos := 0;
     paged := 0;
     unread := 0;
     history_shown := 0;
     type := type_;
     print_time := Fn_win_print_time;
     print_line := Fn_win_print_line;
     refresh_win := Fn_win_refresh;
     presence_colour_on := Fn_win_presence_colour_on;
     presence_colour_off := Fn_win_presence_colour_off;
     show_contact := Fn_win_show_contact;
     handle_error_message := fst table;
     print_incoming_message := snd table |}.

End Create.

(** [now] is what g_date_time_new_now_local() returns at the call: the
    current instant in the local time zone. *)
Definition _win_print_time (now : GDateTime) (self : ProfWin)
    (show_char : ascii) : ProfWin :=
  let date_fmt := g_date_time_format now "%H:%M:%S" in
  on_win self
    (wattron COLOUR_TIME ;;
     wprintw "%s %c " [ArgS (Some date_fmt); ArgC show_char] ;;
     wattroff COLOUR_TIME).

(** The message is formatted from [msg] and the variadic arguments. *)
Definition win_print_line (now : GDateTime) (self : ProfWin)
    (show_char : ascii) (attrs : attr_t) (msg : string) (args : list arg)
    : ProfWin :=
  let fmt_msg := sprintf msg args in
  let self := _win_print_time now self show_char in
  on_win self
    (wattron attrs ;;
     wprintw ("%s" ++ nl) [ArgS (Some fmt_msg)] ;;
     wattroff attrs).

Definition _win_presence_colour_on (self : ProfWin)
    (presence : option string) : ProfWin :=
  if g_strcmp0 presence (Some "online") =? 0 then
    on_win self (wattron COLOUR_ONLINE)
  else if g_strcmp0 presence (Some "away") =? 0 then
    on_win self (wattron COLOUR_AWAY)
  else if g_strcmp0 presence (Some "chat") =? 0 then
    on_win self (wattron COLOUR_CHAT)
  else if g_strcmp0 presence (Some "dnd") =? 0 then
    on_win self (wattron COLOUR_DND)
  else if g_strcmp0 presence (Some "xa") =? 0 then
    on_win self (wattron COLOUR_XA)
  else
    on_win self (wattron COLOUR_OFFLINE).

Definition _win_presence_colour_off (self : ProfWin)
    (presence : option string) : ProfWin :=
  if g_strcmp0 presence (Some "online") =? 0 then
    on_win self (wattroff COLOUR_ONLINE)
  else if g_strcmp0 presence (Some "away") =? 0 then
    on_win self (wattroff COLOUR_AWAY)
  else if g_strcmp0 presence (Some "chat") =? 0 then
    on_win self (wattroff COLOUR_CHAT)
  else if g_strcmp0 presence (Some "dnd") =? 0 then
    on_win self (wattroff COLOUR_DND)
  else if g_strcmp0 presence (Some "xa") =? 0 then
    on_win self (wattroff COLOUR_XA)
  else
    on_win self (wattroff COLOUR_OFFLINE).

(** The format of the quoted status, [, "%s"]. *)
Definition status_fmt : string :=
  ", " ++ String "034" "%s" ++ String "034" "".

(** [now] is the clock reading of the time stamp, [now'] the later one
    the idle time is measured against. *)
Definition _win_show_contact (now now' : GDateTime) (self : ProfWin)
    (contact : PContact) : ProfWin :=
  let barejid := p_contact_barejid contact in
  let name := p_contact_name contact in
  let presence := p_contact_presence contact in
  let status := p_contact_status contact in
  let last_activity := p_contact_last_activity contact in
  let self := _win_print_time now self "-" in
  let self := _win_presence_colour_on self presence in
  let self :=
    match name with
    | Some _ => on_win self (wprintw "%s" [ArgS name])
    | None => on_win self (wprintw "%s" [ArgS barejid])
    end in
  let self := on_win self (wprintw " is %s" [ArgS presence]) in
  let self :=
    match last_activity with
    | Some last =>
        let span := g_date_time_difference now' last in
        let self := on_win self (wprintw ", idle " []) in
        let hours := to_int (span ÷ G_TIME_SPAN_HOUR) in
        let span := to_gint64 (span - hours * G_TIME_SPAN_HOUR) in
        let self :=
          if hours >? 0 then on_win self (wprintw "%dh" [ArgD hours])
          else self in
        let minutes := to_int (span ÷ G_TIME_SPAN_MINUTE) in
        let span := to_gint64 (span - minutes * G_TIME_SPAN_MINUTE) in
        let self := on_win self (wprintw "%dm" [ArgD minutes]) in
        let seconds := to_int (span ÷ G_TIME_SPAN_SECOND) in
        on_win self (wprintw "%ds" [ArgD seconds])
    | None => self
    end in
  let self :=
    match status with
    | Some _ => on_win self (wprintw status_fmt [ArgS (p_contact_status contact)])
    | None => self
    end in
  let self := on_win self (wprintw nl []) in
  _win_presence_colour_off self presence.

(** The result is the gboolean and the window as the call leaves it. *)
Definition _default_handle_error_message (self : ProfWin)
    (from_ err_msg : string) : bool * ProfWin :=
  (false, self).

(** [self->print_time(self, show_char)] *)
Definition call_print_time (f : print_time_fn) (now : GDateTime)
    (self : ProfWin) (show_char : ascii) : ProfWin :=
  match f with
  | Fn_win_print_time => _win_print_time now self show_char
  end.

Definition _print_incoming_message (now : GDateTime) (self : ProfWin)
    (tv_stamp : option GTimeVal) (from_ message : string) : ProfWin :=
  let self :=
    match tv_stamp with
    | None => call_print_time (print_time self) now self "-"
    | Some tv =>
        let time := g_date_time_new_from_timeval_utc tv in
        let date_fmt := g_date_time_format time "%H:%M:%S" in
        on_win self
          (wattron COLOUR_TIME ;;
           wprintw "%s - " [ArgS (Some date_fmt)] ;;
           wattroff COLOUR_TIME)
    end in
  if strncmp message "/me " 4 =? 0 then
    on_win self
      (wattron COLOUR_THEM ;;
       wprintw "*%s " [ArgS (Some from_)] ;;
       waddstr (ptr_add message 4) ;;
       wprintw nl [] ;;
       wattroff COLOUR_THEM)
  else
    on_win self
      (wattron COLOUR_THEM ;;
       wprintw "%s: " [ArgS (Some from_)] ;;
       wattroff COLOUR_THEM ;;
       waddstr message ;;
       wprintw nl []).

Section Dispatch.

(** muc_handle_error_message lives in ui/muc_window.c, which is not
    among the sources: whatever it does is a parameter. *)
Variable muc_handle_error_message :
  ProfWin -> string -> string -> bool * ProfWin.

(** [self->handle_error_message(self, from, err_msg)] *)
Definition call_handle_error_message (self : ProfWin)
    (from_ err_msg : string) : bool * ProfWin :=
  match handle_error_message self with
  | Fn_default_handle_error_message =>
      _default_handle_error_message self from_ err_msg
  | Fn_muc_handle_error_message =>
      muc_handle_error_message self from_ err_msg
  end.

End Dispatch.

(** [self->print_incoming_message(self, tv_stamp, from, message)]; the
    call through a NULL pointer has no result. *)
Definition call_print_incoming_message (now : GDateTime) (self : ProfWin)
    (tv_stamp : option GTimeVal) (from_ message : string) : option ProfWin :=
  match print_incoming_message self with
  | Some Fn_print_incoming_message =>
      Some (_print_incoming_message now self tv_stamp from_ message)
  | None => None
  end.

Section Refresh.

Variable pad_cell : WINDOW -> Z -> Z -> cell.

(** The window and the screen after the call; rows and cols are read
    from stdscr, which is as large as the screen. *)
Definition win_refresh (self : ProfWin) (stdscr : SCREEN)
    : ProfWin * SCREEN :=
  let rows := scr_lines stdscr in
  let cols := scr_cols stdscr in
  (self,
   prefresh pad_cell (win self) (y_pos self) 0 1 0 (rows - 3) (cols - 1)
     stdscr).

End Refresh.

End Window.

(* ================================================================= *)
(** ** tray.c *)

Module Tray.
Import CString GLib.

(** A [GString *] held in a static variable: NULL, a live string, or a
    pointer to a string that was freed. *)
Inductive gstring_ptr : Type :=
| GNull
| GLive (str : string)
| GDangling.

Inductive resource : Type := Res_icon_filename | Res_icon_msg_filename.

(** What the tray does to the outside: the library calls with an effect,
    and the lines it writes to stderr. *)
Inductive event : Type :=
| Ev_stderr (line : string)
| Ev_glib_critical (fn : string)
| Ev_gtk_status_icon_new_from_file (file : string)
| Ev_gtk_status_icon_set_from_file (file : string)
| Ev_g_timeout_add (ms : Z)
| Ev_g_source_remove (id : Z)
| Ev_gtk_widget_destroy
| Ev_g_string_free (r : resource)
| Ev_wins_get_total_unread.

(** The static variables of tray.c. [prof_tray] is NULL or the status
    icon, which is kept as the file it currently shows. *)
Record globals : Type := {
  prof_tray : option string;
  icon_filename : gstring_ptr;
  icon_msg_filename : gstring_ptr;
  unread_messages : Z;
  shutting_down : bool;
  timer : Z
}.

(** The variables as the program starts: the initialised ones are NULL,
    the others zero. *)
Definition initial : globals :=
  {| prof_tray := None; icon_filename := GNull; icon_msg_filename := GNull;
     unread_messages := 0; shutting_down := false; timer := 0 |}.

(** A run of tray code ends with a result, the variables and the events
    it produced, or it crashes (a NULL or dangling pointer is
    dereferenced) after some events. *)
Inductive outcome (A : Type) : Type :=
| Ok (a : A) (g : globals) (log : list event)
| Crash (log : list event).
Arguments Ok {A} a g log.
Arguments Crash {A} log.

Definition M (A : Type) : Type := globals -> outcome A.

Definition ret {A : Type} (a : A) : M A := fun g => Ok a g [].

Definition bind {A B : Type} (m : M A) (k : A -> M B) : M B := fun g =>
  match m g with
  | Ok a g' log =>
      match k a g' with
      | Ok b g'' log' => Ok b g'' (log ++ log')
      | Crash log' => Crash (log ++ log')
      end
  | Crash log => Crash log
  end.

Definition get : M globals := fun g => Ok g g [].
Definition put (g : globals) : M unit := fun _ => Ok tt g [].
Definition emit (e : event) : M unit := fun g => Ok tt g [e].
Definition crash {A : Type} : M A := fun _ => Crash [].

Notation "'let*' x ':=' m 'in' k" := (bind m (fun x => k))
  (at level 10, x name, m at level 100, k at level 200).
Notation "m >> k" := (bind m (fun _ => k))
  (at level 62, right associativity).

(** Assignments to the static variables. *)
Definition set_prof_tray (v : option string) : M unit :=
  let* g := get in
  put {| prof_tray := v; icon_filename := icon_filename g;
         icon_msg_filename := icon_msg_filename g;
         unread_messages := unread_messages g;
         shutting_down := shutting_down g; timer := timer g |}.

Definition set_icon_filename (v : gstring_ptr) : M unit :=
  let* g := get in
  put {| prof_tray := prof_tray g; icon_filename := v;
         icon_msg_filename := icon_msg_filename g;
         unread_messages := unread_messages g;
         shutting_down := shutting_down g; timer := timer g |}.

Definition set_icon_msg_filename (v : gstring_ptr) : M unit :=
  let* g := get in
  put {| prof_tray := prof_tray g; icon_filename := icon_filename g;
         icon_msg_filename := v;
         unread_messages := unread_messages g;
         shutting_down := shutting_down g; timer := timer g |}.

Definition set_unread_messages (v : Z) : M unit :=
  let* g := get in
  put {| prof_tray := prof_tray g; icon_filename := icon_filename g;
         icon_msg_filename := icon_msg_filename g;
         unread_messages := v;
         shutting_down := shutting_down g; timer := timer g |}.

Definition set_shutting_down (v : bool) : M unit :=
  let* g := get in
  put {| prof_tray := prof_tray g; icon_filename := icon_filename g;
         icon_msg_filename := icon_msg_filename g;
         unread_messages := unread_messages g;
         shutting_down := v; timer := timer g |}.

Definition set_timer (v : Z) : M unit :=
  let* g := get in
  put {| prof_tray := prof_tray g; icon_filename := icon_filename g;
         icon_msg_filename := icon_msg_filename g;
         unread_messages := unread_messages g;
         shutting_down := shutting_down g; timer := v |}.

(** [p->str]: reading through the pointer. *)
Definition str_of (p : gstring_ptr) : M string :=
  match p with
  | GLive s => ret s
  | GNull => crash
  | GDangling => crash
  end.

(** g_string_free(p, true) of the string a static variable points to.
    GLib refuses NULL with a warning; freeing a freed string corrupts
    the heap. The variable keeps its, now dangling, value. *)
Definition g_string_free (r : resource) : M unit :=
  let* g := get in
  match r with
  | Res_icon_filename =>
      match icon_filename g with
      | GNull => emit (Ev_glib_critical "g_string_free")
      | GLive _ => emit (Ev_g_string_free r) >> set_icon_filename GDangling
      | GDangling => crash
      end
  | Res_icon_msg_filename =>
      match icon_msg_filename g with
      | GNull => emit (Ev_glib_critical "g_string_free")
      | GLive _ => emit (Ev_g_string_free r) >> set_icon_msg_filename GDangling
      | GDangling => crash
      end
  end.

(** gtk_status_icon_set_from_file(prof_tray, file); GTK refuses a NULL
    icon with a warning. *)
Definition gtk_status_icon_set_from_file (file : string) : M unit :=
  let* g := get in
  match prof_tray g with
  | Some _ =>
      emit (Ev_gtk_status_icon_set_from_file file) >> set_prof_tray (Some file)
  | None => emit (Ev_glib_critical "gtk_status_icon_set_from_file")
  end.

(** What tray.c reads from its build and from the file system:
    ICONS_PATH when the build defines it, the directory
    xdg_get_config_home() returns, which paths are directories, and for
    g_dir_open the names of the entries of a directory, or the message
    of the error. *)
Record env : Type := {
  ICONS_PATH : option string;
  xdg_config_home : string;
  is_dir : string -> bool;
  dir_open : string -> list string + string
}.

(** The loop of _get_icons over the directory. g_dir_read_name gives
    the next entry and NULL after the last one; the GString made from
    NULL is empty, so the loop ends with the directory (or at an entry
    whose name is empty). *)
Fixpoint scan_icons (icons_dir : string) (entries : list string) : M unit :=
  match entries with
  | [] => ret tt
  | name :: rest =>
      if (String.length name =? 0)%nat then ret tt
      else
        (if g_strcmp0 (Some "proIcon.png") (Some name) =? 0 then
           g_string_free Res_icon_filename >>
           set_icon_filename (GLive (icons_dir ++ "/proIcon.png"))
         else if g_strcmp0 (Some "proIconMsg.png") (Some name) =? 0 then
           g_string_free Res_icon_msg_filename >>
           set_icon_msg_filename (GLive (icons_dir ++ "/proIconMsg.png"))
         else ret tt) >>
        scan_icons icons_dir rest
  end.

Definition _get_icons (e : env) : M unit :=
  (match ICONS_PATH e with
   | Some path =>
       set_icon_filename (GLive (path ++ "/proIcon.png")) >>
       set_icon_msg_filename (GLive (path ++ "/proIconMsg.png"))
   | None => ret tt
   end) >>
  let icons_dir := xdg_config_home e ++ "/profanity/icons" in
  if negb (is_dir e icons_dir) then ret tt
  else
    match dir_open e icons_dir with
    | inl entries => scan_icons icons_dir entries
    | inr message =>
        emit (Ev_stderr ("Unable to open dir: " ++ message ++ nl)) >>
        emit (Ev_glib_critical "g_dir_close")
    end.

(** The timer callback; [total_unread] is what wins_get_total_unread()
    returns when it is asked. *)
Definition _tray_change_icon (total_unread : Z) : M bool :=
  let* g := get in
  if shutting_down g then ret false
  else
    emit Ev_wins_get_total_unread >>
    set_unread_messages total_unread >>
    let* g := get in
    (if negb (unread_messages g =? 0) then
       let* file := str_of (icon_msg_filename g) in
       gtk_status_icon_set_from_file file
     else
       let* file := str_of (icon_filename g) in
       gtk_status_icon_set_from_file file) >>
    ret true.

(** [timer_id] is the source id g_timeout_add returns. *)
Definition create_tray (e : env) (timer_id : Z) : M unit :=
  _get_icons e >>
  let* g := get in
  let* file := str_of (icon_filename g) in
  emit (Ev_gtk_status_icon_new_from_file file) >>
  set_prof_tray (Some file) >>
  set_shutting_down false >>
  emit (Ev_g_timeout_add 5000) >>
  set_timer timer_id.

Definition destroy_tray : M unit :=
  set_shutting_down true >>
  let* g := get in
  emit (Ev_g_source_remove (timer g)) >>
  (match prof_tray g with
   | Some _ => emit Ev_gtk_widget_destroy >> set_prof_tray None
   | None => ret tt
   end) >>
  g_string_free Res_icon_filename >>
  g_string_free Res_icon_msg_filename.

(** The timer firing once for each element of [unreads], whatever the
    callback returned before. *)
Fixpoint ticks (unreads : list Z) : M (list bool) :=
  match unreads with
  | [] => ret []
  | u :: rest =>
      let* b := _tray_change_icon u in
      let* bs := ticks rest in
      ret (b :: bs)
  end.

End Tray.

(* ================================================================= *)
(** ** Definitions that follow the specification's words *)

Import CString GLib Curses Window.

(** The colour policy in the specification's words: each of the five
    presences has its own attribute, every other value, the absent one
    included, has the offline attribute. *)
Definition presence_attr (presence : option string) : attr_t :=
  match presence with
  | None => COLOUR_OFFLINE
  | Some p =>
      if String.eqb p "online" then COLOUR_ONLINE
      else if String.eqb p "away" then COLOUR_AWAY
      else if String.eqb p "chat" then COLOUR_CHAT
      else if String.eqb p "dnd" then COLOUR_DND
      else if String.eqb p "xa" then COLOUR_XA
      else COLOUR_OFFLINE
  end.

Definition known_presences : list (option string) :=
  [Some "online"; Some "away"; Some "chat"; Some "dnd"; Some "xa"].

(** The time stamp prefix of an incoming message, as the code writes it:
    the clock reading when there is no time stamp, else the GDateTime
    made from the time stamp; in both cases followed by the marker
    [" - "], all under COLOUR_TIME. *)
Definition stamp_cells (now : GDateTime) (tv_stamp : option GTimeVal)
    : list cell :=
  paint [COLOUR_TIME]
    (g_date_time_format
       (match tv_stamp with
        | None => now
        | Some tv => g_date_time_new_from_timeval_utc tv
        end) "%H:%M:%S" ++ " - ").

(** [contains needle hay]: the text [needle] occurs in [hay]. *)
Fixpoint contains (needle hay : string) : bool :=
  String.prefix needle hay ||
  match hay with
  | EmptyString => false
  | String _ rest => contains needle rest
  end.

(** What [%s] prints for a string that may be NULL. *)
Definition null_or (s : option string) : string :=
  match s with Some x => x | None => "(null)" end.

(** The name show_contact prints: the name of the contact, or the bare
    identifier when it has no name. *)
Definition contact_label (contact : PContact) : string :=
  match p_contact_name contact with
  | Some n => n
  | None => null_or (p_contact_barejid contact)
  end.

(** The quoted status, when the contact has one. *)
Definition status_text (contact : PContact) : string :=
  match p_contact_status contact with
  | Some st => ", " ++ String "034" st ++ String "034" ""
  | None => ""
  end.

(** The idle tokens in the specification's words: the hours token only
    when there are hours, the minutes and the seconds tokens always. *)
Definition idle_tokens (h m s : Z) : string :=
  (if 0 <? h then dec h ++ "h" else "") ++ dec m ++ "m" ++ dec s ++ "s".

(** Decides the comparisons of attributes that wattron and wattroff
    leave in a goal. *)
Ltac attr_cases :=
  repeat match goal with
         | |- context [attr_eq_dec ?a ?b] =>
             destruct (attr_eq_dec a b); try congruence
         end.

(* ================================================================= *)
(** ** Definitions for the properties of rendering and of the tray *)

(** [same_frame w w']: the windows differ in nothing but what their pads
    hold: title, scroll position, flags, type and behaviour table are
    the same, and so are the size, background and scrolling of the
    pad. *)
Definition same_frame (w w' : ProfWin) : Prop :=
  from w' = from w /\
  y_pos w' = y_pos w /\
  paged w' = paged w /\
  unread w' = unread w /\
  history_shown w' = history_shown w /\
  type w' = type w /\
  print_time w' = print_time w /\
  print_line w' = print_line w /\
  refresh_win w' = refresh_win w /\
  presence_colour_on w' = presence_colour_on w /\
  presence_colour_off w' = presence_colour_off w /\
  show_contact w' = show_contact w /\
  handle_error_message w' = handle_error_message w /\
  print_incoming_message w' = print_incoming_message w /\
  w_maxy (win w') = w_maxy (win w) /\
  w_maxx (win w') = w_maxx (win w) /\
  w_bkgd (win w') = w_bkgd (win w) /\
  w_scrollok (win w') = w_scrollok (win w).

(** [pad_extends w w']: the pad of [w'] holds what the pad of [w] holds,
    followed by more. *)
Definition pad_extends (w w' : ProfWin) : Prop :=
  exists cells, w_out (win w') = (w_out (win w) ++ cells)%list.

(** One call on a window of an operation of window.c that a caller
    reaches through the behaviour table or by name: the time stamp, a
    line, a contact, an incoming message (through the table entry, so
    only where it is not NULL), the default error handler, a refresh. *)
Inductive renders : ProfWin -> ProfWin -> Prop :=
| renders_print_time (now : GDateTime) (c : ascii) (w : ProfWin) :
    renders w (call_print_time (print_time w) now w c)
| renders_print_line (now : GDateTime) (c : ascii) (a : attr_t)
    (msg : string) (args : list arg) (w : ProfWin) :
    renders w (win_print_line now w c a msg args)
| renders_show_contact (now now' : GDateTime) (contact : PContact)
    (w : ProfWin) :
    renders w (_win_show_contact now now' w contact)
| renders_incoming_message (now : GDateTime) (tv : option GTimeVal)
    (from_ message : string) (w w' : ProfWin) :
    call_print_incoming_message now w tv from_ message = Some w' ->
    renders w w'
| renders_default_error (from_ err_msg : string) (w : ProfWin) :
    renders w (snd (_default_handle_error_message w from_ err_msg))
| renders_refresh (pad_cell : WINDOW -> Z -> Z -> cell) (scr : SCREEN)
    (w : ProfWin) :
    renders w (fst (win_refresh pad_cell w scr)).

(** Any number of such calls, one after the other. *)
Inductive history : ProfWin -> ProfWin -> Prop :=
| history_start (w : ProfWin) : history w w
| history_then (w w' w'' : ProfWin) :
    history w w' -> renders w' w'' -> history w w''.

(** The file name _get_icons settles on for one icon: the one in the
    icon directory of the user when the directory lists the icon, else
    what the variable held after the ICONS_PATH step. *)
Definition resolved_icon (e : Tray.env) (file : string)
    (entries : list string) (before : Tray.gstring_ptr) : Tray.gstring_ptr :=
  if existsb (String.eqb file) entries
  then Tray.GLive (Tray.xdg_config_home e ++ "/profanity/icons" ++ "/" ++ file)
  else match Tray.ICONS_PATH e with
       | Some path => Tray.GLive (path ++ "/" ++ file)
       | None => before
       end.

(** The events of one tick of a running tray that shows [a] without and
    [b] with unread messages. *)
Definition tick_events (a b : string) (u : Z) : list Tray.event :=
  [Tray.Ev_wins_get_total_unread;
   Tray.Ev_gtk_status_icon_set_from_file (if u =? 0 then a else b)].

(** The static variables with the two file names replaced. *)
Definition with_icons (g : Tray.globals) (a b : Tray.gstring_ptr)
    : Tray.globals :=
  {| Tray.prof_tray := Tray.prof_tray g;
     Tray.icon_filename := a;
     Tray.icon_msg_filename := b;
     Tray.unread_messages := Tray.unread_messages g;
     Tray.shutting_down := Tray.shutting_down g;
     Tray.timer := Tray.timer g |}.

(** Unfolds the drawing calls of a renderer applied to a window given
    field by field. *)
Ltac run_draws :=
  unfold same_frame, pad_extends;
  cbn [call_print_time _win_print_time win_print_line print_time on_win win
       w_out w_attrs fst snd _default_handle_error_message win_refresh];
  unfold seq;
  cbn [on_win win w_out w_attrs wattron wattroff set_attrs waddstr wprintw
       w_maxy w_maxx w_bkgd w_scrollok from y_pos paged unread history_shown
       type print_time print_line refresh_win presence_colour_on
       presence_colour_off show_contact handle_error_message
       print_incoming_message].

(** Closes the three facts about one call: same frame, pad extended,
    attributes switched off again. *)
Ltac frame_goal :=
  split; [repeat split |
  split; [rewrite <- ?app_assoc;
          first [eexists; reflexivity | exists []; now rewrite app_nil_r] |
          intros Hb;
          first [ exact Hb
                | subst; cbn [remove]; attr_cases; cbn [remove]; attr_cases;
                  reflexivity ]]].

(* ================================================================= *)
(** ** Facts about the string functions *)

Section StringFacts.
Import CString GLib.

Lemma strcmp_eqb (a b : string) :
  (strcmp a b =? 0) = String.eqb a b.
Proof.
  revert b; induction a as [|c a IH]; intros [|d b]; simpl; try reflexivity.
  destruct (Ascii.eqb c d); [apply IH|].
  destruct (uchar c <? uchar d); reflexivity.
Qed.

Lemma g_strcmp0_eqb (p : option string) (s : string) :
  (g_strcmp0 p (Some s) =? 0) =
  match p with Some q => String.eqb q s | None => false end.
Proof.
  destruct p as [q|]; simpl; [apply strcmp_eqb | reflexivity].
Qed.

(** The test of _print_incoming_message succeeds on the messages that
    start with the four characters, and on no other. *)
Lemma strncmp_me_0 (message : string) :
  strncmp message "/me " 4 = 0 <-> exists rest, message = "/me " ++ rest.
Proof.
  split.
  - destruct message as [|c1 [|c2 [|c3 [|c4 rest]]]]; simpl;
      repeat match goal with
             | |- context [Ascii.eqb ?x ?y] =>
                 destruct (Ascii.eqb_spec x y); subst
             | |- context [uchar ?x <? uchar ?y] =>
                 destruct (uchar x <? uchar y)
             end; try discriminate.
    intros _. exists rest. reflexivity.
  - intros [rest ->]. reflexivity.
Qed.

Lemma ptr_add_me (rest : string) : ptr_add ("/me " ++ rest) 4 = rest.
Proof. reflexivity. Qed.

Lemma list_ascii_of_string_app (a b : string) :
  list_ascii_of_string (a ++ b) =
  (list_ascii_of_string a ++ list_ascii_of_string b)%list.
Proof. induction a as [|c a IH]; simpl; [reflexivity | now rewrite IH]. Qed.

Lemma string_app_assoc (a b c : string) : (a ++ b) ++ c = a ++ (b ++ c).
Proof. induction a as [|x a IH]; simpl; [reflexivity | now rewrite IH]. Qed.

Lemma string_app_nil_r (a : string) : a ++ "" = a.
Proof. induction a as [|x a IH]; simpl; [reflexivity | now rewrite IH]. Qed.

End StringFacts.

Section PaintFacts.
Import Curses.

Lemma paint_app (l : list attr_t) (a b : string) :
  paint l (a ++ b) = (paint l a ++ paint l b)%list.
Proof. unfold paint. now rewrite list_ascii_of_string_app, map_app. Qed.

Lemma string_of_list_ascii_app (a b : list ascii) :
  string_of_list_ascii (a ++ b) =
  string_of_list_ascii a ++ string_of_list_ascii b.
Proof. induction a as [|c a IH]; simpl; [reflexivity | now rewrite IH]. Qed.

Lemma text_of_app (x y : list cell) :
  text_of (x ++ y) = text_of x ++ text_of y.
Proof. unfold text_of. now rewrite map_app, string_of_list_ascii_app. Qed.

Lemma text_of_paint (l : list attr_t) (s : string) : text_of (paint l s) = s.
Proof.
  unfold text_of, paint. rewrite map_map. simpl. rewrite map_id.
  apply string_of_list_ascii_of_string.
Qed.

End PaintFacts.

(* ================================================================= *)
(** ** The behaviour table *)

(** Which error handler win_create installs: the room handler for
    WIN_MUC, the default one for every other type. *)
Lemma win_create_handle_error_message
    (WIN_CONSOLE WIN_CHAT WIN_MUC WIN_PRIVATE WIN_DUCK PAD_SIZE : Z)
    (title : string) (cols k : Z) :
  k <> WIN_MUC ->
  handle_error_message
    (win_create WIN_CONSOLE WIN_CHAT WIN_MUC WIN_PRIVATE WIN_DUCK PAD_SIZE
       title cols k)
  = Fn_default_handle_error_message.
Proof.
  intros Hk. unfold win_create. simpl.
  destruct (k =? WIN_CONSOLE); [reflexivity|].
  destruct (k =? WIN_CHAT); [reflexivity|].
  destruct (Z.eqb_spec k WIN_MUC); [contradiction|].
  destruct (k =? WIN_PRIVATE); [reflexivity|].
  destruct (k =? WIN_DUCK); reflexivity.
Qed.

(** The entry win_create installs for print_incoming_message, as a
    function of the type alone. *)
Lemma win_create_print_incoming_message
    (WIN_CONSOLE WIN_CHAT WIN_MUC WIN_PRIVATE WIN_DUCK PAD_SIZE : Z)
    (title : string) (cols k : Z) :
  NoDup [WIN_CONSOLE; WIN_CHAT; WIN_MUC; WIN_PRIVATE; WIN_DUCK] ->
  print_incoming_message
    (win_create WIN_CONSOLE WIN_CHAT WIN_MUC WIN_PRIVATE WIN_DUCK PAD_SIZE
       title cols k)
  = if (k =? WIN_CHAT) || (k =? WIN_PRIVATE)
    then Some Fn_print_incoming_message else None.
Proof.
  intros Hnd.
  assert (Hd : WIN_CONSOLE <> WIN_CHAT /\ WIN_CONSOLE <> WIN_PRIVATE /\
               WIN_MUC <> WIN_PRIVATE /\ WIN_CHAT <> WIN_PRIVATE).
  { inversion Hnd as [|? ? H1 Hnd1]; subst.
    inversion Hnd1 as [|? ? H2 Hnd2]; subst.
    inversion Hnd2 as [|? ? H3 Hnd3]; subst.
    simpl in H1, H2, H3. intuition. }
  destruct Hd as (H1 & H2 & H3 & H4).
  unfold win_create. simpl.
  destruct (Z.eqb_spec k WIN_CONSOLE) as [->|];
    [ destruct (Z.eqb_spec WIN_CONSOLE WIN_CHAT); [contradiction|];
      destruct (Z.eqb_spec WIN_CONSOLE WIN_PRIVATE); [contradiction|];
      reflexivity |].
  destruct (Z.eqb_spec k WIN_CHAT) as [->|]; [reflexivity|].
  destruct (Z.eqb_spec k WIN_MUC) as [->|];
    [ destruct (Z.eqb_spec WIN_MUC WIN_PRIVATE); [contradiction|];
      reflexivity |].
  destruct (Z.eqb_spec k WIN_PRIVATE) as [->|]; [reflexivity|].
  destruct (k =? WIN_DUCK); reflexivity.
Qed.

(** C1. For every window type k, the window win_create returns has a
    print_incoming_message entry exactly when k is WIN_CHAT or
    WIN_PRIVATE: the entry is then _print_incoming_message and a call
    through it has a result; for WIN_CONSOLE, WIN_MUC, WIN_DUCK and every
    value that is none of the five enumerators the entry is NULL and a
    call through it has none. The type the window records is k. *)
Theorem win_create_print_incoming_message_kinds :
  forall (WIN_CONSOLE WIN_CHAT WIN_MUC WIN_PRIVATE WIN_DUCK PAD_SIZE : Z)
         (title : string) (cols k : Z),
    NoDup [WIN_CONSOLE; WIN_CHAT; WIN_MUC; WIN_PRIVATE; WIN_DUCK] ->
    let w := win_create WIN_CONSOLE WIN_CHAT WIN_MUC WIN_PRIVATE WIN_DUCK
               PAD_SIZE title cols k in
    type w = k /\
    (print_incoming_message w <> None <-> k = WIN_CHAT \/ k = WIN_PRIVATE) /\
    (k = WIN_CHAT \/ k = WIN_PRIVATE ->
     print_incoming_message w = Some Fn_print_incoming_message) /\
    (k = WIN_CONSOLE \/ k = WIN_MUC \/ k = WIN_DUCK \/
     ~ In k [WIN_CONSOLE; WIN_CHAT; WIN_MUC; WIN_PRIVATE; WIN_DUCK] ->
     print_incoming_message w = None) /\
    (forall now tv_stamp from_ message,
       call_print_incoming_message now w tv_stamp from_ message <> None <->
       k = WIN_CHAT \/ k = WIN_PRIVATE).
Proof.
  intros WIN_CONSOLE WIN_CHAT WIN_MUC WIN_PRIVATE WIN_DUCK PAD_SIZE
         title cols k Hnd w.
  pose proof (win_create_print_incoming_message
                WIN_CONSOLE WIN_CHAT WIN_MUC WIN_PRIVATE WIN_DUCK PAD_SIZE
                title cols k Hnd) as Hpim.
  fold w in Hpim.
  assert (Hiff : print_incoming_message w <> None <->
                 k = WIN_CHAT \/ k = WIN_PRIVATE).
  { rewrite Hpim.
    destruct (Z.eqb_spec k WIN_CHAT); destruct (Z.eqb_spec k WIN_PRIVATE);
      simpl; split; intros H; try discriminate; auto; try tauto. }
  assert (Hne : forall x y : Z, In x [y] -> x = y)
    by (intros x y [H|[]]; auto).
  split; [reflexivity|].
  split; [exact Hiff|].
  split; [|split].
  - intros Hk. rewrite Hpim.
    destruct Hk as [->| ->]; rewrite Z.eqb_refl; [reflexivity|].
    now rewrite orb_true_r.
  - intros Hk.
    destruct (print_incoming_message w) as [f|] eqn:E; [|reflexivity].
    exfalso.
    assert (Hc : k = WIN_CHAT \/ k = WIN_PRIVATE)
      by (apply Hiff; discriminate).
    inversion Hnd as [|? ? H1 Hnd1]; subst.
    inversion Hnd1 as [|? ? H2 Hnd2]; subst.
    inversion Hnd2 as [|? ? H3 Hnd3]; subst.
    inversion Hnd3 as [|? ? H4 Hnd4]; subst.
    simpl in *.
    destruct Hc as [->| ->]; intuition congruence.
  - intros now tv_stamp from_ message.
    unfold call_print_incoming_message.
    destruct (print_incoming_message w) as [[]|] eqn:E.
    + split; [intros _; apply Hiff; discriminate | discriminate].
    + split; [intros H; now elim H | intros H; apply Hiff in H; now elim H].
Qed.

Lemma win_create_print_incoming_message_kinds_witness :
  NoDup [1; 2; 3; 4; 5] /\
  print_incoming_message (win_create 1 2 3 4 5 1000 "bob" 80 2)
  = Some Fn_print_incoming_message.
Proof.
  assert (H : NoDup [1; 2; 3; 4; 5]).
  { repeat constructor; simpl; intuition discriminate. }
  split; [exact H|].
  destruct (win_create_print_incoming_message_kinds
              1 2 3 4 5 1000 "bob" 80 2 H) as (_ & _ & Hsome & _).
  apply Hsome. left. reflexivity.
Defined.

(** C6. On every window whose handle_error_message entry is the default
    handler, and for every sender and error text, the call returns FALSE
    and leaves the window, its pad included, exactly as it was: nothing
    is rendered. The windows win_create makes for every type other than
    WIN_MUC are such windows. *)
Theorem default_handle_error_message_unhandled :
  forall (muc : ProfWin -> string -> string -> bool * ProfWin)
         (from_ err_msg : string),
    (forall self : ProfWin,
       handle_error_message self = Fn_default_handle_error_message ->
       let r := call_handle_error_message muc self from_ err_msg in
       r = _default_handle_error_message self from_ err_msg /\
       fst r = false /\
       snd r = self /\
       w_out (win (snd r)) = w_out (win self)) /\
    (forall (WIN_CONSOLE WIN_CHAT WIN_MUC WIN_PRIVATE WIN_DUCK PAD_SIZE : Z)
            (title : string) (cols k : Z),
       k <> WIN_MUC ->
       let self := win_create WIN_CONSOLE WIN_CHAT WIN_MUC WIN_PRIVATE
                     WIN_DUCK PAD_SIZE title cols k in
       call_handle_error_message muc self from_ err_msg = (false, self)).
Proof.
  intros muc from_ err_msg.
  assert (Hdefault : forall self : ProfWin,
             handle_error_message self = Fn_default_handle_error_message ->
             call_handle_error_message muc self from_ err_msg = (false, self)).
  { intros self Hdef. unfold call_handle_error_message. now rewrite Hdef. }
  split.
  - intros self Hdef r. subst r. rewrite (Hdefault self Hdef).
    repeat split.
  - intros WIN_CONSOLE WIN_CHAT WIN_MUC WIN_PRIVATE WIN_DUCK PAD_SIZE
           title cols k Hk self.
    apply Hdefault. now apply win_create_handle_error_message.
Qed.

Lemma default_handle_error_message_unhandled_witness :
  let self := win_create 1 2 3 4 5 1000 "bob" 80 2 in
  let muc := fun (w : ProfWin) (_ _ : string) => (true, w) in
  handle_error_message self = Fn_default_handle_error_message /\
  call_handle_error_message muc self "alice" "service-unavailable"
  = (false, self).
Proof.
  intros self muc.
  assert (H : handle_error_message self = Fn_default_handle_error_message)
    by reflexivity.
  split; [exact H|].
  refine (proj2 (default_handle_error_message_unhandled
                   muc "alice" "service-unavailable")
            1 2 3 4 5 1000 "bob" 80 2 _).
  discriminate.
Defined.

(* ================================================================= *)
(** ** Presence colours *)

Lemma presence_attr_other (presence : option string) :
  ~ In presence known_presences -> presence_attr presence = COLOUR_OFFLINE.
Proof.
  intros Hno. destruct presence as [p|]; [|reflexivity].
  unfold presence_attr.
  repeat match goal with
         | |- context [String.eqb p ?s] =>
             destruct (String.eqb_spec p s) as [->|_];
             [exfalso; apply Hno; simpl; tauto|]
         end.
  reflexivity.
Qed.

Lemma _win_presence_colour_on_attr (self : ProfWin) (presence : option string) :
  _win_presence_colour_on self presence
  = on_win self (wattron (presence_attr presence)).
Proof.
  unfold _win_presence_colour_on, presence_attr.
  rewrite !g_strcmp0_eqb.
  destruct presence as [p|]; [|reflexivity].
  repeat match goal with
         | |- context [String.eqb p ?s] =>
             destruct (String.eqb p s); [reflexivity|]
         end.
  reflexivity.
Qed.

Lemma _win_presence_colour_off_attr (self : ProfWin) (presence : option string) :
  _win_presence_colour_off self presence
  = on_win self (wattroff (presence_attr presence)).
Proof.
  unfold _win_presence_colour_off, presence_attr.
  rewrite !g_strcmp0_eqb.
  destruct presence as [p|]; [|reflexivity].
  repeat match goal with
         | |- context [String.eqb p ?s] =>
             destruct (String.eqb p s); [reflexivity|]
         end.
  reflexivity.
Qed.

(** C3. For every presence, NULL and unknown values included,
    _win_presence_colour_on switches on and _win_presence_colour_off
    switches off one and the same attribute, the one of the colour
    policy: "online", "away", "chat", "dnd" and "xa" have the attributes
    COLOUR_ONLINE, COLOUR_AWAY, COLOUR_CHAT, COLOUR_DND and COLOUR_XA,
    six different attributes with COLOUR_OFFLINE, and every other value
    has COLOUR_OFFLINE in both. *)
Theorem presence_colour_on_off_same_attribute :
  forall (self : ProfWin) (presence : option string),
    (exists a : attr_t,
        _win_presence_colour_on self presence = on_win self (wattron a) /\
        _win_presence_colour_off self presence = on_win self (wattroff a) /\
        a = presence_attr presence) /\
    map presence_attr known_presences
    = [COLOUR_ONLINE; COLOUR_AWAY; COLOUR_CHAT; COLOUR_DND; COLOUR_XA] /\
    NoDup (COLOUR_OFFLINE :: map presence_attr known_presences) /\
    (~ In presence known_presences ->
     _win_presence_colour_on self presence
     = on_win self (wattron COLOUR_OFFLINE) /\
     _win_presence_colour_off self presence
     = on_win self (wattroff COLOUR_OFFLINE)).
Proof.
  intros self presence.
  split; [|split; [|split]].
  - exists (presence_attr presence).
    split; [apply _win_presence_colour_on_attr|].
    split; [apply _win_presence_colour_off_attr | reflexivity].
  - reflexivity.
  - simpl. repeat constructor; simpl; intuition discriminate.
  - intros Hno.
    rewrite _win_presence_colour_on_attr, _win_presence_colour_off_attr.
    now rewrite (presence_attr_other presence Hno).
Qed.

Lemma presence_colour_on_off_same_attribute_witness :
  let self := win_create 1 2 3 4 5 1000 "bob" 80 2 in
  ~ In (Some "busy") known_presences /\
  _win_presence_colour_on self (Some "busy")
  = on_win self (wattron COLOUR_OFFLINE) /\
  _win_presence_colour_off self (Some "busy")
  = on_win self (wattroff COLOUR_OFFLINE).
Proof.
  intros self.
  assert (H : ~ In (Some "busy") known_presences).
  { simpl. intuition discriminate. }
  split; [exact H|].
  exact (proj2 (proj2 (proj2
           (presence_colour_on_off_same_attribute self (Some "busy")))) H).
Defined.

(* ================================================================= *)
(** ** Incoming messages *)

Lemma sprintf_time (d : string) (c : ascii) :
  sprintf "%s %c " [ArgS (Some d); ArgC c] = d ++ " " ++ String c " ".
Proof. reflexivity. Qed.

Lemma paint_nl_last (l : list attr_t) (s : string) :
  paint l (s ++ nl) = (paint l s ++ [("010"%char, l)])%list.
Proof. now rewrite paint_app. Qed.

(** What _print_incoming_message appends to a pad that has no attribute
    switched on: the time stamp, then the line chosen by the strncmp
    test; it leaves no attribute switched on. *)
Lemma _print_incoming_message_out (now : GDateTime) (self : ProfWin)
    (tv_stamp : option GTimeVal) (from_ message : string) :
  w_attrs (win self) = [] ->
  let self' := _print_incoming_message now self tv_stamp from_ message in
  w_out (win self') =
    (w_out (win self) ++ stamp_cells now tv_stamp ++
     (if strncmp message "/me " 4 =? 0
      then paint [COLOUR_THEM] ("*" ++ from_ ++ " " ++ ptr_add message 4 ++ nl)
      else paint [COLOUR_THEM] (from_ ++ ": ") ++ paint [] (message ++ nl)))%list
  /\ w_attrs (win self') = [].
Proof.
  intros Hattrs self'. subst self'. unfold _print_incoming_message.
  destruct self as [f w y pg un hs ty pt pl rw pon poff sc hem pim].
  destruct w as [my mx bk so at_ out]. simpl in Hattrs. subst at_.
  destruct pt.
  destruct tv_stamp as [tv|]; destruct (strncmp message "/me " 4 =? 0);
    cbn [call_print_time _win_print_time print_time on_win win w_out w_attrs];
    unfold seq, stamp_cells;
    cbn [on_win win w_out w_attrs wattron wattroff set_attrs waddstr wprintw
         remove w_maxy w_maxx w_bkgd w_scrollok];
    attr_cases; cbn [remove]; attr_cases;
    (split; [|reflexivity]);
    change (sprintf nl []) with nl;
    change (sprintf "*%s " [ArgS (Some from_)]) with ("*" ++ from_ ++ " ");
    change (sprintf "%s: " [ArgS (Some from_)]) with (from_ ++ ": ");
    rewrite ?sprintf_time;
    try match goal with
        | |- context [sprintf "%s - " [ArgS (Some ?d)]] =>
            change (sprintf "%s - " [ArgS (Some d)]) with (d ++ " - ")
        end;
    rewrite ?paint_app, <- ?app_assoc; reflexivity.
Qed.

Lemma strncmp_me_eqb_true (rest : string) :
  (strncmp ("/me " ++ rest) "/me " 4 =? 0) = true.
Proof. reflexivity. Qed.

Lemma strncmp_me_eqb_false (message : string) :
  (forall rest, message <> "/me " ++ rest) ->
  (strncmp message "/me " 4 =? 0) = false.
Proof.
  intros Hno. apply Z.eqb_neq. intros H0.
  apply strncmp_me_0 in H0. destruct H0 as [rest Hrest].
  exact (Hno rest Hrest).
Qed.

(** A text that occurs in another starts with a character of it. *)
Lemma contains_first_char (c : ascii) (needle hay : string) :
  contains (String c needle) hay = true ->
  In c (list_ascii_of_string hay).
Proof.
  induction hay as [|d hay IH]; simpl; [discriminate|].
  destruct (ascii_dec c d) as [->|Hne].
  - intros _. now left.
  - simpl. intros H. right. apply IH. exact H.
Qed.

Lemma contains_absent_char (c : ascii) (needle hay : string) :
  ~ In c (list_ascii_of_string hay) ->
  contains (String c needle) hay = false.
Proof.
  intros Hno. destruct (contains (String c needle) hay) eqn:E;
    [|reflexivity].
  elim Hno. now apply (contains_first_char c needle).
Qed.

(** C2. On a pad with no attribute switched on, and for every sender and
    message, _print_incoming_message writes, after the time stamp, a body
    chosen by the content rule: when the message is "/me " followed by
    [rest], the body is the action line "*<from> <rest>" and its newline,
    all under COLOUR_THEM, the sender followed by one space and then
    [rest] with the four characters gone; otherwise it is "<from>: "
    under COLOUR_THEM, then the message and its newline under no
    attribute. In both cases the body ends with the newline. The action
    line holds the sender and [rest] as they are, so it contains neither
    ": " nor "/me" whenever these hold no ':' and no '/'. For "alice"
    and "/me waves" the body reads "*alice waves" and contains neither
    ": " nor "/me"; for "alice" and "hello" it reads "alice: hello". *)
Theorem print_incoming_message_content_rule :
  forall (now : GDateTime) (self : ProfWin) (tv_stamp : option GTimeVal)
         (from_ message : string),
    w_attrs (win self) = [] ->
    exists body : list cell,
      w_out (win (_print_incoming_message now self tv_stamp from_ message))
      = (w_out (win self) ++ stamp_cells now tv_stamp ++ body)%list /\
      (forall rest, message = "/me " ++ rest ->
         body = paint [COLOUR_THEM] ("*" ++ from_ ++ " " ++ rest ++ nl)) /\
      ((forall rest, message <> "/me " ++ rest) ->
         body = (paint [COLOUR_THEM] (from_ ++ ": ") ++
                 paint [] (message ++ nl))%list) /\
      (exists line attrs, body = (line ++ [("010"%char, attrs)])%list) /\
      (forall rest, message = "/me " ++ rest ->
         (forall c, In c (list_ascii_of_string (from_ ++ rest)) ->
                    c <> ":"%char /\ c <> "/"%char) ->
         contains ": " (text_of body) = false /\
         contains "/me" (text_of body) = false) /\
      (from_ = "alice" -> message = "/me waves" ->
         text_of body = "*alice waves" ++ nl /\
         contains ": " (text_of body) = false /\
         contains "/me" (text_of body) = false) /\
      (from_ = "alice" -> message = "hello" ->
         text_of body = "alice: hello" ++ nl).
Proof.
  intros now self tv_stamp from_ message Hattrs.
  destruct (_print_incoming_message_out now self tv_stamp from_ message Hattrs)
    as [Hout _].
  match type of Hout with
  | _ = (_ ++ _ ++ ?b)%list => exists b
  end.
  split; [exact Hout|].
  split; [|split; [|split; [|split; [|split]]]].
  - intros rest ->. rewrite strncmp_me_eqb_true. now rewrite ptr_add_me.
  - intros Hno. now rewrite (strncmp_me_eqb_false message Hno).
  - destruct (strncmp message "/me " 4 =? 0).
    + exists (paint [COLOUR_THEM] ("*" ++ from_ ++ " " ++ ptr_add message 4)).
      exists [COLOUR_THEM].
      rewrite <- paint_nl_last. f_equal.
      now rewrite !string_app_assoc.
    + exists (paint [COLOUR_THEM] (from_ ++ ": ") ++ paint [] message)%list.
      exists [].
      rewrite <- app_assoc. now rewrite <- paint_nl_last.
  - intros rest -> Hchars.
    rewrite strncmp_me_eqb_true, ptr_add_me, text_of_paint.
    assert (Hin : forall c,
               In c (list_ascii_of_string ("*" ++ from_ ++ " " ++ rest ++ nl)) ->
               c = "*"%char \/ c = " "%char \/ c = "010"%char \/
               In c (list_ascii_of_string (from_ ++ rest))).
    { intros c Hc. simpl in Hc. destruct Hc as [<-|Hc]; [now left|].
      rewrite !list_ascii_of_string_app in Hc.
      rewrite list_ascii_of_string_app.
      apply in_app_or in Hc. destruct Hc as [Hc|Hc];
        [right; right; right; apply in_or_app; now left|].
      simpl in Hc. destruct Hc as [<-|Hc]; [right; now left|].
      rewrite ?list_ascii_of_string_app in Hc.
      apply in_app_or in Hc. destruct Hc as [Hc|Hc];
        [right; right; right; apply in_or_app; now right|].
      simpl in Hc. destruct Hc as [<-|[]]. right; right; now left. }
    split; apply contains_absent_char; intros Hc;
      apply Hin in Hc;
      destruct Hc as [Hc|[Hc|[Hc|Hc]]]; try discriminate Hc;
      destruct (Hchars _ Hc) as [H1 H2]; congruence.
  - intros -> ->. repeat split; reflexivity.
  - intros -> ->. reflexivity.
Qed.

Lemma print_incoming_message_content_rule_witness :
  let self := win_create 1 2 3 4 5 1000 "alice" 80 2 in
  let now := {| dt_instant := 0; dt_utc_offset := 0 |} in
  w_attrs (win self) = [] /\
  exists body : list cell,
    w_out (win (_print_incoming_message now self None "alice" "/me waves"))
    = (w_out (win self) ++ stamp_cells now None ++ body)%list /\
    text_of body = "*alice waves" ++ nl.
Proof.
  intros self now.
  assert (H : w_attrs (win self) = []) by reflexivity.
  split; [exact H|].
  destruct (print_incoming_message_content_rule
              now self None "alice" "/me waves" H)
    as (body & Hout & _ & _ & _ & _ & Hex & _).
  exists body. split; [exact Hout|].
  exact (proj1 (Hex eq_refl eq_refl)).
Defined.

(** C10. The action line needs the four characters '/', 'm', 'e' and
    the space. A message that does not start with them, so the message
    "/me" and every message "/me" followed by a character other than the
    space, fails the strncmp test and is written as the normal line:
    "<from>: " under COLOUR_THEM, then the message itself, "/me" and all,
    and the newline under no attribute. *)
Theorem action_line_needs_me_and_space :
  forall (now : GDateTime) (self : ProfWin) (tv_stamp : option GTimeVal)
         (from_ message : string),
    w_attrs (win self) = [] ->
    (message = "/me" \/
     (exists c rest, c <> " "%char /\ message = "/me" ++ String c rest) \/
     (forall rest, message <> "/me " ++ rest)) ->
    strncmp message "/me " 4 <> 0 /\
    w_out (win (_print_incoming_message now self tv_stamp from_ message))
    = (w_out (win self) ++ stamp_cells now tv_stamp ++
       paint [COLOUR_THEM] (from_ ++ ": ") ++ paint [] (message ++ nl))%list.
Proof.
  intros now self tv_stamp from_ message Hattrs Hmsg.
  assert (Hno : forall rest, message <> "/me " ++ rest).
  { destruct Hmsg as [-> | [(c & rest' & Hc & ->) | Hno]].
    - intros rest H. discriminate H.
    - intros rest H. simpl in H. injection H as H1 _. now apply Hc.
    - exact Hno. }
  pose proof (strncmp_me_eqb_false message Hno) as Htest.
  split; [now apply Z.eqb_neq|].
  destruct (_print_incoming_message_out now self tv_stamp from_ message Hattrs)
    as [Hout _].
  rewrite Htest in Hout. exact Hout.
Qed.

Lemma action_line_needs_me_and_space_witness :
  let self := win_create 1 2 3 4 5 1000 "alice" 80 2 in
  let now := {| dt_instant := 0; dt_utc_offset := 0 |} in
  w_attrs (win self) = [] /\
  text_of (w_out (win (_print_incoming_message now self None "alice" "/men")))
  = "00:00:00 - alice: /men" ++ nl /\
  text_of (w_out (win (_print_incoming_message now self None "alice" "/me")))
  = "00:00:00 - alice: /me" ++ nl.
Proof.
  intros self now.
  assert (H : w_attrs (win self) = []) by reflexivity.
  split; [exact H|].
  assert (Hmen : "/men" = "/me" \/
                 (exists c rest, c <> " "%char /\
                                 "/men" = "/me" ++ String c rest) \/
                 (forall rest, "/men" <> "/me " ++ rest)).
  { right. left. exists "n"%char, "". split; [discriminate | reflexivity]. }
  assert (Hme : "/me" = "/me" \/
                (exists c rest, c <> " "%char /\
                                "/me" = "/me" ++ String c rest) \/
                (forall rest, "/me" <> "/me " ++ rest)).
  { left. reflexivity. }
  split.
  - rewrite (proj2 (action_line_needs_me_and_space
                      now self None "alice" "/men" H Hmen)).
    reflexivity.
  - rewrite (proj2 (action_line_needs_me_and_space
                      now self None "alice" "/me" H Hme)).
    reflexivity.
Defined.

(** C5. What the code does with a time stamp, on the window of a chat,
    for the epoch as time stamp and a local zone one hour east of UTC:
    the prefix comes from the GDateTime that
    g_date_time_new_from_timeval_utc makes, a UTC one, formatted as it
    is, so it reads 00:00:00 where the local wall clock reads 01:00:00;
    without a time stamp the prefix is the local clock reading and the
    same marker. *)
Theorem print_incoming_message_stamp_in_utc :
  let self := win_create 1 2 3 4 5 1000 "alice" 80 2 in
  let tv := {| tv_sec := 0; tv_usec := 0 |} in
  let now := {| dt_instant := 60000000; dt_utc_offset := 3600 |} in
  w_out (win (_print_incoming_message now self (Some tv) "alice" "hello"))
  = (paint [COLOUR_TIME] "00:00:00 - " ++ paint [COLOUR_THEM] "alice: " ++
     paint [] ("hello" ++ nl))%list /\
  g_date_time_format
    (g_date_time_to_timezone (g_date_time_new_from_timeval_utc tv)
       (dt_utc_offset now)) "%H:%M:%S"
  = "01:00:00" /\
  w_out (win (_print_incoming_message now self None "alice" "hello"))
  = (paint [COLOUR_TIME] "01:01:00 - " ++ paint [COLOUR_THEM] "alice: " ++
     paint [] ("hello" ++ nl))%list.
Proof. repeat split; vm_compute; reflexivity. Qed.

(* ================================================================= *)
(** ** Showing a contact *)

Lemma sprintf_s (s : option string) : sprintf "%s" [ArgS s] = null_or s.
Proof. destruct s; simpl; [apply string_app_nil_r | reflexivity]. Qed.

Lemma sprintf_is (s : option string) :
  sprintf " is %s" [ArgS s] = " is " ++ null_or s.
Proof. destruct s; simpl; [now rewrite string_app_nil_r | reflexivity]. Qed.

Lemma sprintf_d (k : string) (d : Z) :
  k = "h" \/ k = "m" \/ k = "s" ->
  sprintf ("%d" ++ k) [ArgD d] = dec d ++ k.
Proof. intros [->|[->| ->]]; reflexivity. Qed.

Lemma sprintf_status (st : string) :
  sprintf status_fmt [ArgS (Some st)]
  = ", " ++ String "034" st ++ String "034" "".
Proof. reflexivity. Qed.

(** What _win_show_contact appends to a pad that has no attribute
    switched on: the time stamp under COLOUR_TIME, then the whole line
    under the attribute of the presence, the idle tokens being the
    integers the code computes. *)
Lemma _win_show_contact_out (now now' : GDateTime) (self : ProfWin)
    (contact : PContact) :
  w_attrs (win self) = [] ->
  let self' := _win_show_contact now now' self contact in
  let idle :=
    match p_contact_last_activity contact with
    | None => ""
    | Some last =>
        let span := g_date_time_difference now' last in
        let hours := to_int (span ÷ G_TIME_SPAN_HOUR) in
        let span := to_gint64 (span - hours * G_TIME_SPAN_HOUR) in
        let minutes := to_int (span ÷ G_TIME_SPAN_MINUTE) in
        let span := to_gint64 (span - minutes * G_TIME_SPAN_MINUTE) in
        let seconds := to_int (span ÷ G_TIME_SPAN_SECOND) in
        ", idle " ++ idle_tokens hours minutes seconds
    end in
  w_out (win self') =
    (w_out (win self) ++
     paint [COLOUR_TIME] (g_date_time_format now "%H:%M:%S" ++ " - ") ++
     paint [presence_attr (p_contact_presence contact)]
       (contact_label contact ++ " is " ++
        null_or (p_contact_presence contact) ++ idle ++
        status_text contact ++ nl))%list
  /\ w_attrs (win self') = [].
Proof.
  intros Hattrs self' idle. subst self' idle. unfold _win_show_contact.
  cbv zeta.
  rewrite _win_presence_colour_on_attr, _win_presence_colour_off_attr.
  destruct self as [f w y pg un hs ty pt pl rw pon poff sc hem pim].
  destruct w as [my mx bk so at_ out]. simpl in Hattrs. subst at_.
  destruct contact as [bj nm pr st la].
  unfold contact_label, status_text, idle_tokens.
  cbn [p_contact_barejid p_contact_name p_contact_presence p_contact_status
       p_contact_last_activity].
  set (a := presence_attr pr).
  destruct nm as [n|]; destruct st as [s|]; destruct la as [last|];
    try (rewrite (Z.gtb_ltb _ 0);
         destruct (0 <? to_int (g_date_time_difference now' last
                                ÷ G_TIME_SPAN_HOUR)));
    cbn [_win_print_time on_win win w_out w_attrs];
    unfold seq;
    cbn [on_win win w_out w_attrs wattron wattroff set_attrs waddstr wprintw
         remove w_maxy w_maxx w_bkgd w_scrollok];
    attr_cases; cbn [remove]; attr_cases;
    (split; [|reflexivity]);
    rewrite ?sprintf_time, ?sprintf_s, ?sprintf_is, ?sprintf_status;
    change (sprintf nl []) with nl;
    change (sprintf ", idle " []) with ", idle ";
    change "%dh" with ("%d" ++ "h");
    change "%dm" with ("%d" ++ "m");
    change "%ds" with ("%d" ++ "s");
    rewrite ?sprintf_d by tauto;
    rewrite ?paint_app, <- ?app_assoc; cbn [null_or]; reflexivity.
Qed.

Lemma to_int_id (z : Z) : - 2 ^ 31 <= z < 2 ^ 31 -> to_int z = z.
Proof.
  intros Hz. unfold to_int, wrap_signed.
  change (2 ^ (32 - 1)) with (2 ^ 31). change (2 ^ 32) with (2 * 2 ^ 31).
  rewrite Z.mod_small; lia.
Qed.

Lemma to_gint64_id (z : Z) : - 2 ^ 63 <= z < 2 ^ 63 -> to_gint64 z = z.
Proof.
  intros Hz. unfold to_gint64, wrap_signed.
  change (2 ^ (64 - 1)) with (2 ^ 63). change (2 ^ 64) with (2 * 2 ^ 63).
  rewrite Z.mod_small; lia.
Qed.

(** The integers of the idle arithmetic, for a span whose hours fit an
    int: no conversion wraps, and each division is the mathematical
    one on the remainder of the step before. *)
Lemma idle_arith (span : Z) :
  0 <= span < 2 ^ 31 * G_TIME_SPAN_HOUR ->
  let h := span / G_TIME_SPAN_HOUR in
  let r := span - h * G_TIME_SPAN_HOUR in
  let m := r / G_TIME_SPAN_MINUTE in
  let r' := r - m * G_TIME_SPAN_MINUTE in
  let s := r' / G_TIME_SPAN_SECOND in
  let hours := to_int (span ÷ G_TIME_SPAN_HOUR) in
  let span1 := to_gint64 (span - hours * G_TIME_SPAN_HOUR) in
  let minutes := to_int (span1 ÷ G_TIME_SPAN_MINUTE) in
  let span2 := to_gint64 (span1 - minutes * G_TIME_SPAN_MINUTE) in
  let seconds := to_int (span2 ÷ G_TIME_SPAN_SECOND) in
  hours = h /\ minutes = m /\ seconds = s /\
  0 <= h < 2 ^ 31 /\ 0 <= m < 60 /\ 0 <= s < 60.
Proof.
  intros Hspan h r m r' s hours span1 minutes span2 seconds.
  unfold G_TIME_SPAN_HOUR, G_TIME_SPAN_MINUTE, G_TIME_SPAN_SECOND in *.
  change (2 ^ 31) with 2147483648 in *.
  assert (Hh : 0 <= h < 2147483648)
    by (subst h; split;
        [apply Z.div_pos; lia | apply Z.div_lt_upper_bound; lia]).
  assert (Hr : 0 <= r < 3600000000)
    by (subst r h; pose proof (Z.mod_pos_bound span 3600000000 ltac:(lia));
        rewrite Z.mod_eq in * by lia; lia).
  assert (Hm : 0 <= m < 60)
    by (subst m; split;
        [apply Z.div_pos; lia | apply Z.div_lt_upper_bound; lia]).
  assert (Hr' : 0 <= r' < 60000000)
    by (subst r' m; pose proof (Z.mod_pos_bound r 60000000 ltac:(lia));
        rewrite Z.mod_eq in * by lia; lia).
  assert (Hs : 0 <= s < 60)
    by (subst s; split;
        [apply Z.div_pos; lia | apply Z.div_lt_upper_bound; lia]).
  assert (Ehours : hours = h).
  { subst hours. rewrite Z.quot_div_nonneg by lia.
    apply to_int_id. change (2 ^ 31) with 2147483648. fold h. lia. }
  assert (Espan1 : span1 = r).
  { subst span1. rewrite Ehours. fold r. apply to_gint64_id.
    change (2 ^ 63) with 9223372036854775808. lia. }
  assert (Eminutes : minutes = m).
  { subst minutes. rewrite Espan1, Z.quot_div_nonneg by lia.
    apply to_int_id. change (2 ^ 31) with 2147483648. fold m. lia. }
  assert (Espan2 : span2 = r').
  { subst span2. rewrite Espan1, Eminutes. fold r'. apply to_gint64_id.
    change (2 ^ 63) with 9223372036854775808. lia. }
  assert (Eseconds : seconds = s).
  { subst seconds. rewrite Espan2, Z.quot_div_nonneg by lia.
    apply to_int_id. change (2 ^ 31) with 2147483648. fold s. lia. }
  repeat split; try assumption; lia.
Qed.

(** C4. For a contact with a last activity and a non-negative idle span
    (microseconds; any span whose hours fit an int, which covers every
    difference of two GDateTimes), show_contact writes after " is
    <presence>" the text ", idle " and the tokens of the span taken apart
    hours first, then minutes of what the hours leave, then seconds of
    what the minutes leave: the hours token only when the hours are
    positive, the minutes and seconds tokens always, minutes and seconds
    below 60. A span of 3661 seconds gives "1h1m1s", one of 59 seconds
    "0m59s" and one of 3600 seconds "1h0m0s". *)
Theorem show_contact_idle_decomposition :
  forall (now now' : GDateTime) (self : ProfWin) (contact : PContact)
         (last : GDateTime),
    w_attrs (win self) = [] ->
    p_contact_last_activity contact = Some last ->
    let span := g_date_time_difference now' last in
    0 <= span < 2 ^ 31 * G_TIME_SPAN_HOUR ->
    let h := span / G_TIME_SPAN_HOUR in
    let r := span - h * G_TIME_SPAN_HOUR in
    let m := r / G_TIME_SPAN_MINUTE in
    let r' := r - m * G_TIME_SPAN_MINUTE in
    let s := r' / G_TIME_SPAN_SECOND in
    w_out (win (_win_show_contact now now' self contact))
    = (w_out (win self) ++
       paint [COLOUR_TIME] (g_date_time_format now "%H:%M:%S" ++ " - ") ++
       paint [presence_attr (p_contact_presence contact)]
         (contact_label contact ++ " is " ++
          null_or (p_contact_presence contact) ++
          (", idle " ++ idle_tokens h m s) ++
          status_text contact ++ nl))%list /\
    0 <= m < 60 /\ 0 <= s < 60 /\
    (3661 * G_TIME_SPAN_SECOND <= span < 3662 * G_TIME_SPAN_SECOND ->
     idle_tokens h m s = "1h1m1s") /\
    (59 * G_TIME_SPAN_SECOND <= span < 60 * G_TIME_SPAN_SECOND ->
     idle_tokens h m s = "0m59s") /\
    (3600 * G_TIME_SPAN_SECOND <= span < 3601 * G_TIME_SPAN_SECOND ->
     idle_tokens h m s = "1h0m0s").
Proof.
  intros now now' self contact last Hattrs Hlast span Hspan h r m r' s.
  destruct (_win_show_contact_out now now' self contact Hattrs) as [Hout _].
  rewrite Hlast in Hout. cbv zeta in Hout. fold span in Hout.
  destruct (idle_arith span Hspan) as (Eh & Em & Es & _ & Hm & Hs).
  cbv zeta in Eh, Em, Es, Hm, Hs.
  rewrite Es, Em, Eh in Hout.
  fold h r m r' s in Hm, Hs.
  split; [exact Hout|].
  split; [exact Hm|]. split; [exact Hs|].
  unfold G_TIME_SPAN_SECOND.
  assert (Hval : forall k a b c,
             k * 1000000 <= span < (k + 1) * 1000000 ->
             k = a * 3600 + b * 60 + c -> 0 <= b < 60 -> 0 <= c < 60 ->
             h = a /\ m = b /\ s = c).
  { intros k a b c Hk -> Hb Hc.
    assert (Ea : h = a).
    { subst h. unfold G_TIME_SPAN_HOUR.
      symmetry. apply (Z.div_unique span 3600000000 a (span - 3600000000 * a));
        lia. }
    assert (Er : r = span - a * 3600000000)
      by (subst r; rewrite Ea; reflexivity).
    assert (Eb : m = b).
    { subst m. unfold G_TIME_SPAN_MINUTE. rewrite Er.
      symmetry.
      apply (Z.div_unique _ 60000000 b
               (span - a * 3600000000 - 60000000 * b)); lia. }
    assert (Er' : r' = span - a * 3600000000 - b * 60000000)
      by (subst r'; rewrite Er, Eb; reflexivity).
    assert (Ec : s = c).
    { subst s. unfold G_TIME_SPAN_SECOND. rewrite Er'.
      symmetry.
      apply (Z.div_unique _ 1000000 c
               (span - a * 3600000000 - b * 60000000 - 1000000 * c)); lia. }
    auto. }
  split; [|split].
  - intros Hk. destruct (Hval 3661 1 1 1) as (-> & -> & ->); try lia.
    reflexivity.
  - intros Hk. destruct (Hval 59 0 0 59) as (-> & -> & ->); try lia.
    reflexivity.
  - intros Hk. destruct (Hval 3600 1 0 0) as (-> & -> & ->); try lia.
    reflexivity.
Qed.

Lemma show_contact_idle_decomposition_witness :
  let self := win_create 1 2 3 4 5 1000 "console" 80 1 in
  let now := {| dt_instant := 7200000000; dt_utc_offset := 0 |} in
  let last := {| dt_instant := 3539000000; dt_utc_offset := 0 |} in
  let contact :=
    {| p_contact_barejid := Some "bob@example.org";
       p_contact_name := Some "Bob";
       p_contact_presence := Some "away";
       p_contact_status := None;
       p_contact_last_activity := Some last |} in
  w_attrs (win self) = [] /\
  p_contact_last_activity contact = Some last /\
  0 <= g_date_time_difference now last < 2 ^ 31 * G_TIME_SPAN_HOUR /\
  w_out (win (_win_show_contact now now self contact))
  = (paint [COLOUR_TIME] "02:00:00 - " ++
     paint [COLOUR_AWAY] ("Bob is away, idle 1h1m1s" ++ nl))%list.
Proof.
  intros self now last contact.
  assert (H1 : w_attrs (win self) = []) by reflexivity.
  assert (H2 : p_contact_last_activity contact = Some last) by reflexivity.
  assert (H3 : 0 <= g_date_time_difference now last
               < 2 ^ 31 * G_TIME_SPAN_HOUR) by (vm_compute; split; congruence).
  split; [exact H1|]. split; [exact H2|]. split; [exact H3|].
  rewrite (proj1 (show_contact_idle_decomposition
                    now now self contact last H1 H2 H3)).
  vm_compute. reflexivity.
Defined.

(* ================================================================= *)
(** ** Refreshing *)

Section RefreshFacts.

Variable pad_cell : WINDOW -> Z -> Z -> cell.

Lemma prefresh_size (pad : WINDOW) (a b c d e f : Z) (scr : SCREEN) :
  scr_lines (prefresh pad_cell pad a b c d e f scr) = scr_lines scr /\
  scr_cols (prefresh pad_cell pad a b c d e f scr) = scr_cols scr.
Proof.
  unfold prefresh. cbv zeta.
  match goal with |- context [if ?t then scr else _] => destruct t end;
    split; reflexivity.
Qed.

(** Above the first and below the last screen row of the rectangle the
    screen keeps what it showed. *)
Lemma prefresh_outside (pad : WINDOW) (a b c d e f : Z) (scr : SCREEN)
    (row col : Z) :
  row < Z.max 0 c \/ e < row ->
  scr_cell (prefresh pad_cell pad a b c d e f scr) row col
  = scr_cell scr row col.
Proof.
  intros Hrow. unfold prefresh. cbv zeta.
  match goal with |- context [if ?t then scr else _] => destruct t end;
    [reflexivity|].
  cbn [scr_cell].
  match goal with |- (if ?t then _ else _) = _ => destruct t eqn:Hin end;
    [|reflexivity].
  exfalso.
  apply andb_prop in Hin. destruct Hin as [Hin _].
  apply andb_prop in Hin. destruct Hin as [Hin _].
  apply andb_prop in Hin. destruct Hin as [H1 H2].
  apply Z.leb_le in H1. apply Z.leb_le in H2.
  destruct (_ >? w_maxy pad) eqn:Hgt in H2.
  - apply Z.gtb_lt in Hgt. lia.
  - lia.
Qed.

(** Inside the rectangle, when it fits the pad and the screen, the
    screen shows the pad. *)
Lemma prefresh_inside (pad : WINDOW) (a b c d e f : Z) (scr : SCREEN)
    (row col : Z) :
  0 <= a -> 0 <= b -> 0 <= c -> 0 <= d ->
  a + e - c <= w_maxy pad -> b + f - d <= w_maxx pad ->
  e < scr_lines scr -> f < scr_cols scr ->
  c <= row <= e -> d <= col <= f ->
  scr_cell (prefresh pad_cell pad a b c d e f scr) row col
  = pad_cell pad (a + (row - c)) (b + (col - d)).
Proof.
  intros Ha Hb Hc Hd Hy Hx He Hf Hrow Hcol. unfold prefresh. cbv zeta.
  rewrite !Z.max_r by assumption.
  replace (a + e - c >? w_maxy pad) with false
    by (symmetry; rewrite Z.gtb_ltb; apply Z.ltb_ge; lia).
  replace (b + f - d >? w_maxx pad) with false
    by (symmetry; rewrite Z.gtb_ltb; apply Z.ltb_ge; lia).
  replace (e >=? scr_lines scr) with false
    by (symmetry; rewrite Z.geb_leb; apply Z.leb_gt; lia).
  replace (f >=? scr_cols scr) with false
    by (symmetry; rewrite Z.geb_leb; apply Z.leb_gt; lia).
  replace (c >? e) with false
    by (symmetry; rewrite Z.gtb_ltb; apply Z.ltb_ge; lia).
  replace (d >? f) with false
    by (symmetry; rewrite Z.gtb_ltb; apply Z.ltb_ge; lia).
  cbn [orb scr_cell].
  replace (c <=? row) with true by (symmetry; apply Z.leb_le; lia).
  replace (row <=? e) with true by (symmetry; apply Z.leb_le; lia).
  replace (d <=? col) with true by (symmetry; apply Z.leb_le; lia).
  replace (col <=? f) with true by (symmetry; apply Z.leb_le; lia).
  reflexivity.
Qed.

(** The same prefresh again shows the same screen. *)
Lemma prefresh_twice (pad : WINDOW) (a b c d e f : Z) (scr : SCREEN)
    (row col : Z) :
  scr_cell (prefresh pad_cell pad a b c d e f
              (prefresh pad_cell pad a b c d e f scr)) row col
  = scr_cell (prefresh pad_cell pad a b c d e f scr) row col.
Proof.
  unfold prefresh. cbv zeta.
  match goal with
  | |- context [if ?t then scr else _] => destruct t eqn:Herr
  end.
  - rewrite Herr. reflexivity.
  - cbn [scr_lines scr_cols scr_cell]. rewrite Herr.
    cbn [scr_cell].
    match goal with |- (if ?t then _ else _) = _ => destruct t end;
      reflexivity.
Qed.

End RefreshFacts.

(** C7. win_refresh returns the window as it was, pad and every other
    field, and changes the screen alone, whose size it keeps. Row 0 and
    the rows from the last but one on keep what they showed: one row at
    the top and two at the bottom. When the scroll position is not
    negative and the pad reaches far enough down and right, every other
    row, from row 1 to row rows-3, shows over all columns the pad row
    y_pos + (row - 1): the rectangle of the pad that starts at y_pos. A
    second win_refresh right after the first returns the same window and
    shows the same screen. *)
Theorem win_refresh_pure_view :
  forall (pad_cell : WINDOW -> Z -> Z -> cell) (self : ProfWin)
         (stdscr : SCREEN),
    let rows := scr_lines stdscr in
    let cols := scr_cols stdscr in
    let r := win_refresh pad_cell self stdscr in
    let r2 := win_refresh pad_cell (fst r) (snd r) in
    fst r = self /\
    scr_lines (snd r) = rows /\ scr_cols (snd r) = cols /\
    (forall row col,
       row < 1 \/ rows - 3 < row ->
       scr_cell (snd r) row col = scr_cell stdscr row col) /\
    (0 <= y_pos self ->
     y_pos self + (rows - 4) <= w_maxy (win self) ->
     cols - 1 <= w_maxx (win self) ->
     forall row col,
       1 <= row <= rows - 3 -> 0 <= col <= cols - 1 ->
       scr_cell (snd r) row col
       = pad_cell (win self) (y_pos self + (row - 1)) col) /\
    fst r2 = self /\
    scr_lines (snd r2) = rows /\ scr_cols (snd r2) = cols /\
    (forall row col, scr_cell (snd r2) row col = scr_cell (snd r) row col).
Proof.
  intros pad_cell self stdscr rows cols r r2.
  subst r2 r. unfold win_refresh. cbn [fst snd].
  pose proof (prefresh_size pad_cell (win self) (y_pos self) 0 1 0
                (rows - 3) (cols - 1) stdscr) as [Hl Hc].
  fold rows cols. fold rows cols in Hl, Hc.
  split; [reflexivity|]. split; [exact Hl|]. split; [exact Hc|].
  split; [|split; [|split; [|split; [|split]]]].
  - intros row col Hrow. apply prefresh_outside.
    rewrite Z.max_r by lia. exact Hrow.
  - intros Hy Hfit Hwide row col Hrow Hcol.
    rewrite (prefresh_inside pad_cell (win self) (y_pos self) 0 1 0
               (rows - 3) (cols - 1) stdscr row col); try lia.
    f_equal. lia.
  - reflexivity.
  - rewrite Hl, Hc.
    rewrite (proj1 (prefresh_size pad_cell (win self) (y_pos self) 0 1 0
                      (rows - 3) (cols - 1) _)).
    exact Hl.
  - rewrite Hl, Hc.
    rewrite (proj2 (prefresh_size pad_cell (win self) (y_pos self) 0 1 0
                      (rows - 3) (cols - 1) _)).
    exact Hc.
  - intros row col. rewrite Hl, Hc. apply prefresh_twice.
Qed.

Lemma win_refresh_pure_view_witness :
  let pad_cell := fun (w : WINDOW) (row col : Z) =>
    nth (Z.to_nat (row * (w_maxx w + 1) + col)) (w_out w) (" "%char, []) in
  let now := {| dt_instant := 0; dt_utc_offset := 0 |} in
  let self :=
    _print_incoming_message now (win_create 1 2 3 4 5 1000 "alice" 80 2)
      None "alice" "hello" in
  let stdscr :=
    {| scr_lines := 24; scr_cols := 80;
       scr_cell := fun _ _ => ("."%char, []) |} in
  0 <= y_pos self /\
  y_pos self + (scr_lines stdscr - 4) <= w_maxy (win self) /\
  scr_cols stdscr - 1 <= w_maxx (win self) /\
  scr_cell (snd (win_refresh pad_cell self stdscr)) 1 11
  = ("a"%char, [COLOUR_THEM]) /\
  scr_cell (snd (win_refresh pad_cell self stdscr)) 0 11 = ("."%char, []).
Proof.
  intros pad_cell now self stdscr.
  assert (H1 : 0 <= y_pos self) by (vm_compute; congruence).
  assert (H2 : y_pos self + (scr_lines stdscr - 4) <= w_maxy (win self))
    by (vm_compute; congruence).
  assert (H3 : scr_cols stdscr - 1 <= w_maxx (win self))
    by (vm_compute; congruence).
  destruct (win_refresh_pure_view pad_cell self stdscr)
    as (_ & _ & _ & Hout & Hin & _).
  split; [exact H1|]. split; [exact H2|]. split; [exact H3|]. split.
  - rewrite (Hin H1 H2 H3 1 11); [reflexivity | | ]; simpl; lia.
  - rewrite (Hout 0 11); [reflexivity | lia].
Defined.

(* ================================================================= *)
(** ** What rendering keeps *)

(** One call keeps the frame of the window, adds to its pad without
    touching what the pad held, and switches off what it switched on. *)
Lemma renders_keeps (w w' : ProfWin) :
  renders w w' ->
  same_frame w w' /\ pad_extends w w' /\
  (w_attrs (win w) = [] -> w_attrs (win w') = []).
Proof.
  intros Hr. destruct Hr.
  - destruct w as [f [my mx bk so at_ out] y pg un hs ty pt pl rw pon poff
                     sc hem pim].
    destruct pt. run_draws. frame_goal.
  - destruct w as [f [my mx bk so at_ out] y pg un hs ty pt pl rw pon poff
                     sc hem pim].
    run_draws. frame_goal.
  - unfold _win_show_contact. cbv zeta.
    rewrite _win_presence_colour_on_attr, _win_presence_colour_off_attr.
    destruct w as [f [my mx bk so at_ out] y pg un hs ty pt pl rw pon poff
                     sc hem pim].
    destruct contact as [bj nm pr st la].
    cbn [p_contact_barejid p_contact_name p_contact_presence p_contact_status
         p_contact_last_activity].
    set (a := presence_attr pr).
    destruct nm as [n|]; destruct st as [s|]; destruct la as [last|];
      try match goal with
          | |- context [if ?t >? 0 then _ else _] => destruct (t >? 0)
          end;
      run_draws; frame_goal.
  - unfold call_print_incoming_message in H.
    destruct (print_incoming_message w) as [[]|]; [|discriminate].
    injection H as <-.
    unfold _print_incoming_message.
    destruct w as [f [my mx bk so at_ out] y pg un hs ty pt pl rw pon poff
                     sc hem pim].
    destruct pt.
    destruct tv as [tv|]; destruct (strncmp message "/me " 4 =? 0);
      run_draws; frame_goal.
  - run_draws. frame_goal.
  - run_draws. frame_goal.
Qed.

Lemma same_frame_trans (a b c : ProfWin) :
  same_frame a b -> same_frame b c -> same_frame a c.
Proof.
  unfold same_frame. intros Hab Hbc.
  repeat match goal with H : _ /\ _ |- _ => destruct H end.
  repeat split; congruence.
Qed.

Lemma history_keeps (w w' : ProfWin) :
  history w w' ->
  same_frame w w' /\ pad_extends w w' /\
  (w_attrs (win w) = [] -> w_attrs (win w') = []).
Proof.
  induction 1 as [w|w w' w'' Hh IH Hr].
  - split; [unfold same_frame; repeat split|].
    split; [exists []; now rewrite app_nil_r | auto].
  - destruct IH as (Hf & [cells Hc] & Hb).
    destruct (renders_keeps w' w'' Hr) as (Hf' & [cells' Hc'] & Hb').
    split; [exact (same_frame_trans w w' w'' Hf Hf')|].
    split; [exists (cells ++ cells')%list; rewrite Hc', Hc;
            now rewrite app_assoc|].
    auto.
Qed.

(** A chat window with two lines written to it, and how it came about. *)
Lemma sample_history :
  let now := {| dt_instant := 0; dt_utc_offset := 0 |} in
  let w0 := win_create 1 2 3 4 5 1000 "alice" 80 2 in
  history w0
    (win_print_line now
       (_print_incoming_message now w0 None "alice" "hello")
       "!" COLOUR_ONLINE "%s is online" [ArgS (Some "alice")]).
Proof.
  intros now w0.
  eapply history_then; [|apply renders_print_line].
  eapply history_then; [apply history_start|].
  apply (renders_incoming_message now None "alice" "hello" w0).
  reflexivity.
Qed.

(** X1. Whatever is rendered on a window, and however often (time
    stamps, lines, contacts, incoming messages, errors the default
    handler sees, refreshes), the window keeps its title, its type, its
    behaviour table, its scroll position and its unread, paged and
    history flags, and the pad keeps its size, background and scrolling:
    rendering changes what the pad holds and nothing else. *)
Theorem rendering_keeps_frame :
  forall w w' : ProfWin, history w w' -> same_frame w w'.
Proof.
  intros w w' H. exact (proj1 (history_keeps w w' H)).
Qed.

Lemma rendering_keeps_frame_witness :
  let now := {| dt_instant := 0; dt_utc_offset := 0 |} in
  let w0 := win_create 1 2 3 4 5 1000 "alice" 80 2 in
  let w := win_print_line now
             (_print_incoming_message now w0 None "alice" "hello")
             "!" COLOUR_ONLINE "%s is online" [ArgS (Some "alice")] in
  history w0 w /\ type w = 2 /\
  print_incoming_message w = Some Fn_print_incoming_message.
Proof.
  intros now w0 w.
  pose proof sample_history as H. cbv zeta in H. fold now w0 w in H.
  split; [exact H|].
  pose proof (rendering_keeps_frame w0 w H) as Hf.
  unfold same_frame in Hf.
  destruct Hf as (_ & _ & _ & _ & _ & Hty & _ & _ & _ & _ & _ & _ & _ & Hpim & _).
  split; [exact Hty | exact Hpim].
Defined.





(* ================================================================= *)
(** ** Further properties of the window *)











Lemma idle_arith_future (span : Z) :
  - (2 ^ 31 * G_TIME_SPAN_HOUR) < span <= 0 ->
  let n := - span in
  let m := - (n mod G_TIME_SPAN_HOUR / G_TIME_SPAN_MINUTE) in
  let s := - (n mod G_TIME_SPAN_MINUTE / G_TIME_SPAN_SECOND) in
  let hours := to_int (span ÷ G_TIME_SPAN_HOUR) in
  let span1 := to_gint64 (span - hours * G_TIME_SPAN_HOUR) in
  let minutes := to_int (span1 ÷ G_TIME_SPAN_MINUTE) in
  let span2 := to_gint64 (span1 - minutes * G_TIME_SPAN_MINUTE) in
  let seconds := to_int (span2 ÷ G_TIME_SPAN_SECOND) in
  hours = - (n / G_TIME_SPAN_HOUR) /\ hours <= 0 /\
  minutes = m /\ seconds = s /\
  -60 < m <= 0 /\ -60 < s <= 0.
Proof.
  intros Hspan n m s hours span1 minutes span2 seconds.
  unfold G_TIME_SPAN_HOUR, G_TIME_SPAN_MINUTE, G_TIME_SPAN_SECOND in *.
  change (2 ^ 31) with 2147483648 in *.
  assert (Hn : 0 <= n < 2147483648 * 3600000000) by (subst n; lia).
  assert (Es : span = - n) by (subst n; lia).
  assert (Hh : 0 <= n / 3600000000 < 2147483648)
    by (split; [apply Z.div_pos; lia | apply Z.div_lt_upper_bound; lia]).
  pose proof (Z.mod_pos_bound n 3600000000 ltac:(lia)) as Hr.
  pose proof (Z.mod_pos_bound n 60000000 ltac:(lia)) as Hr'.
  assert (Hmm : 0 <= n mod 3600000000 / 60000000 < 60)
    by (split; [apply Z.div_pos; lia | apply Z.div_lt_upper_bound; lia]).
  assert (Hss : 0 <= n mod 60000000 / 1000000 < 60)
    by (split; [apply Z.div_pos; lia | apply Z.div_lt_upper_bound; lia]).
  assert (Ehours : hours = - (n / 3600000000)).
  { subst hours. rewrite Es, Z.quot_opp_l by lia.
    rewrite Z.quot_div_nonneg by lia.
    apply to_int_id. change (2 ^ 31) with 2147483648. lia. }
  assert (Espan1 : span1 = - (n mod 3600000000)).
  { subst span1. rewrite Ehours, Es.
    rewrite to_gint64_id;
      [rewrite (Z.mod_eq n 3600000000) by lia; lia|].
    change (2 ^ 63) with 9223372036854775808.
    rewrite (Z.mod_eq n 3600000000) in Hr by lia. lia. }
  assert (Eminutes : minutes = m).
  { subst minutes m. rewrite Espan1, Z.quot_opp_l by lia.
    rewrite Z.quot_div_nonneg by lia.
    apply to_int_id. change (2 ^ 31) with 2147483648. lia. }
  assert (Emod : n mod 3600000000 mod 60000000 = n mod 60000000).
  { change 3600000000 with (60 * 60000000).
    rewrite Z.mul_comm. rewrite Z.rem_mul_r by lia.
    rewrite Z.mul_comm, Z.mod_add by lia. apply Z.mod_mod. lia. }
  assert (Espan2 : span2 = - (n mod 60000000)).
  { subst span2. rewrite Espan1, Eminutes. subst m.
    rewrite <- Emod.
    rewrite to_gint64_id;
      [rewrite (Z.mod_eq (n mod 3600000000) 60000000) by lia; lia|].
    change (2 ^ 63) with 9223372036854775808.
    pose proof (Z.mod_pos_bound (n mod 3600000000) 60000000 ltac:(lia)) as Hq.
    rewrite (Z.mod_eq (n mod 3600000000) 60000000) in Hq by lia. lia. }
  assert (Eseconds : seconds = s).
  { subst seconds s. rewrite Espan2, Z.quot_opp_l by lia.
    rewrite Z.quot_div_nonneg by lia.
    apply to_int_id. change (2 ^ 31) with 2147483648. lia. }
  subst m s. repeat split; try assumption; lia.
Qed.







(** X7. For a contact without a last activity, show_contact writes the
    time stamp and then, all under the colour of the presence and the
    newline included: the name of the contact, or the bare identifier
    when it has no name, " is " and the presence, and the quoted status
    when there is one. There is no idle text, the second clock reading
    plays no part, and no attribute is left on. *)
Theorem show_contact_without_last_activity :
  forall (now now' : GDateTime) (self : ProfWin) (contact : PContact),
    w_attrs (win self) = [] ->
    p_contact_last_activity contact = None ->
    w_out (win (_win_show_contact now now' self contact))
    = (w_out (win self) ++
       paint [COLOUR_TIME] (g_date_time_format now "%H:%M:%S" ++ " - ") ++
       paint [presence_attr (p_contact_presence contact)]
         (contact_label contact ++ " is " ++
          null_or (p_contact_presence contact) ++
          status_text contact ++ nl))%list /\
    w_attrs (win (_win_show_contact now now' self contact)) = [].
Proof.
  intros now now' self contact Hattrs Hla.
  destruct (_win_show_contact_out now now' self contact Hattrs) as [Hout Hb].
  rewrite Hla in Hout. split; [exact Hout | exact Hb].
Qed.

Lemma show_contact_without_last_activity_witness :
  let self := win_create 1 2 3 4 5 1000 "console" 80 1 in
  let now := {| dt_instant := 0; dt_utc_offset := 0 |} in
  let contact :=
    {| p_contact_barejid := Some "bob@example.org";
       p_contact_name := None;
       p_contact_presence := Some "dnd";
       p_contact_status := Some "busy";
       p_contact_last_activity := None |} in
  w_attrs (win self) = [] /\
  p_contact_last_activity contact = None /\
  text_of (w_out (win (_win_show_contact now now self contact)))
  = "00:00:00 - bob@example.org is dnd, " ++ String "034" "busy" ++
    String "034" nl.
Proof.
  intros self now contact.
  assert (H1 : w_attrs (win self) = []) by reflexivity.
  assert (H2 : p_contact_last_activity contact = None) by reflexivity.
  split; [exact H1|]. split; [exact H2|].
  rewrite (proj1 (show_contact_without_last_activity
                    now now self contact H1 H2)).
  reflexivity.
Defined.

(** X8. When the last activity of a contact lies in the future, so that
    the idle span is negative (or zero), show_contact writes no hours
    token at all, whatever the distance, and writes the minutes and the
    seconds as the negated parts of the distance: both are between -59
    and 0. A last activity 90 seconds ahead reads "idle -1m-30s", one
    two hours ahead "idle 0m0s". *)
Theorem show_contact_idle_in_future :
  forall (now now' : GDateTime) (self : ProfWin) (contact : PContact)
         (last : GDateTime),
    w_attrs (win self) = [] ->
    p_contact_last_activity contact = Some last ->
    let span := g_date_time_difference now' last in
    - (2 ^ 31 * G_TIME_SPAN_HOUR) < span <= 0 ->
    let n := - span in
    let m := - (n mod G_TIME_SPAN_HOUR / G_TIME_SPAN_MINUTE) in
    let s := - (n mod G_TIME_SPAN_MINUTE / G_TIME_SPAN_SECOND) in
    w_out (win (_win_show_contact now now' self contact))
    = (w_out (win self) ++
       paint [COLOUR_TIME] (g_date_time_format now "%H:%M:%S" ++ " - ") ++
       paint [presence_attr (p_contact_presence contact)]
         (contact_label contact ++ " is " ++
          null_or (p_contact_presence contact) ++
          (", idle " ++ dec m ++ "m" ++ dec s ++ "s") ++
          status_text contact ++ nl))%list /\
    -60 < m <= 0 /\ -60 < s <= 0.
Proof.
  intros now now' self contact last Hattrs Hlast span Hspan n m s.
  destruct (_win_show_contact_out now now' self contact Hattrs) as [Hout _].
  rewrite Hlast in Hout. cbv zeta in Hout. fold span in Hout.
  destruct (idle_arith_future span Hspan) as (Eh & Hh & Em & Es & Hm & Hs).
  cbv zeta in Eh, Hh, Em, Es, Hm, Hs.
  rewrite Es, Em in Hout.
  unfold idle_tokens in Hout.
  replace (0 <? to_int (span ÷ G_TIME_SPAN_HOUR)) with false in Hout
    by (symmetry; apply Z.ltb_ge; exact Hh).
  fold n m s in Hout, Hm, Hs.
  split; [exact Hout|]. split; assumption.
Qed.

Lemma show_contact_idle_in_future_witness :
  let self := win_create 1 2 3 4 5 1000 "console" 80 1 in
  let now := {| dt_instant := 0; dt_utc_offset := 0 |} in
  let last := {| dt_instant := 90000000; dt_utc_offset := 0 |} in
  let contact :=
    {| p_contact_barejid := Some "bob@example.org";
       p_contact_name := Some "Bob";
       p_contact_presence := Some "xa";
       p_contact_status := None;
       p_contact_last_activity := Some last |} in
  w_attrs (win self) = [] /\
  p_contact_last_activity contact = Some last /\
  - (2 ^ 31 * G_TIME_SPAN_HOUR) < g_date_time_difference now last <= 0 /\
  text_of (w_out (win (_win_show_contact now now self contact)))
  = "00:00:00 - Bob is xa, idle -1m-30s" ++ nl.
Proof.
  intros self now last contact.
  assert (H1 : w_attrs (win self) = []) by reflexivity.
  assert (H2 : p_contact_last_activity contact = Some last) by reflexivity.
  assert (H3 : - (2 ^ 31 * G_TIME_SPAN_HOUR)
               < g_date_time_difference now last <= 0)
    by (vm_compute; split; congruence).
  split; [exact H1|]. split; [exact H2|]. split; [exact H3|].
  rewrite (proj1 (show_contact_idle_in_future
                    now now self contact last H1 H2 H3)).
  vm_compute. reflexivity.
Defined.



(** X10. On a screen of three rows or fewer, or of no columns, win_refresh
    shows nothing: the rectangle between the top row and the two bottom
    rows is empty, prefresh refuses it, and the screen and the window
    stay exactly as they were. *)
Theorem win_refresh_small_screen :
  forall (pad_cell : WINDOW -> Z -> Z -> cell) (self : ProfWin)
         (stdscr : SCREEN),
    scr_lines stdscr <= 3 \/ scr_cols stdscr <= 0 ->
    win_refresh pad_cell self stdscr = (self, stdscr).
Proof.
  intros pad_cell self stdscr Hsmall.
  unfold win_refresh, prefresh. cbv zeta. f_equal.
  match goal with |- (if ?t then _ else _) = _ => destruct t eqn:Herr end;
    [reflexivity|].
  exfalso.
  apply orb_false_elim in Herr. destruct Herr as [Herr Hcol].
  apply orb_false_elim in Herr. destruct Herr as [_ Hrow].
  rewrite Z.gtb_ltb in Hrow, Hcol.
  apply Z.ltb_ge in Hrow. apply Z.ltb_ge in Hcol.
  change (Z.max 0 1) with 1 in *. change (Z.max 0 0) with 0 in *.
  destruct (_ >? w_maxy (win self)) eqn:Hy in Hrow;
    destruct (_ >? w_maxx (win self)) eqn:Hx in Hcol;
    rewrite ?Z.gtb_ltb in *;
    try apply Z.ltb_lt in Hy; try apply Z.ltb_lt in Hx; lia.
Qed.

Lemma win_refresh_small_screen_witness :
  let pad_cell := fun (w : WINDOW) (row col : Z) =>
    nth (Z.to_nat (row * (w_maxx w + 1) + col)) (w_out w) (" "%char, []) in
  let self := win_create 1 2 3 4 5 1000 "alice" 80 2 in
  let stdscr :=
    {| scr_lines := 3; scr_cols := 80;
       scr_cell := fun _ _ => ("."%char, []) |} in
  (scr_lines stdscr <= 3 \/ scr_cols stdscr <= 0) /\
  win_refresh pad_cell self stdscr = (self, stdscr).
Proof.
  intros pad_cell self stdscr.
  assert (H : scr_lines stdscr <= 3 \/ scr_cols stdscr <= 0)
    by (left; simpl; lia).
  split; [exact H|].
  exact (win_refresh_small_screen pad_cell self stdscr H).
Defined.

(** X11. win_create installs the room handler muc_handle_error_message
    for the type WIN_MUC and for no other type, and on a WIN_MUC window
    the call through the table is the call of that handler: whether
    such a window reports an error as handled is up to the room code. *)
Theorem win_create_muc_handler :
  forall (WIN_CONSOLE WIN_CHAT WIN_MUC WIN_PRIVATE WIN_DUCK PAD_SIZE : Z)
         (muc : ProfWin -> string -> string -> bool * ProfWin)
         (title : string) (cols k : Z) (from_ err_msg : string),
    NoDup [WIN_CONSOLE; WIN_CHAT; WIN_MUC; WIN_PRIVATE; WIN_DUCK] ->
    let w := win_create WIN_CONSOLE WIN_CHAT WIN_MUC WIN_PRIVATE WIN_DUCK
               PAD_SIZE title cols k in
    (handle_error_message w = Fn_muc_handle_error_message <-> k = WIN_MUC) /\
    (k = WIN_MUC ->
     call_handle_error_message muc w from_ err_msg = muc w from_ err_msg).
Proof.
  intros WIN_CONSOLE WIN_CHAT WIN_MUC WIN_PRIVATE WIN_DUCK PAD_SIZE muc
         title cols k from_ err_msg Hnd w.
  assert (Hd : WIN_CONSOLE <> WIN_MUC /\ WIN_CHAT <> WIN_MUC).
  { inversion Hnd as [|? ? H1 Hnd1]; subst.
    inversion Hnd1 as [|? ? H2 Hnd2]; subst.
    simpl in H1, H2. intuition. }
  destruct Hd as [H1 H2].
  assert (Hiff : handle_error_message w = Fn_muc_handle_error_message <->
                 k = WIN_MUC).
  { subst w. unfold win_create. cbn [handle_error_message fst].
    destruct (Z.eqb_spec k WIN_CONSOLE) as [->|];
      [split; [discriminate | intros E; now elim H1]|].
    destruct (Z.eqb_spec k WIN_CHAT) as [->|];
      [split; [discriminate | intros E; now elim H2]|].
    destruct (Z.eqb_spec k WIN_MUC) as [->|Hk]; [split; reflexivity|].
    destruct (k =? WIN_PRIVATE);
      [split; [discriminate | intros E; now elim Hk]|].
    destruct (k =? WIN_DUCK); split; try discriminate;
      intros E; now elim Hk. }
  split; [exact Hiff|].
  intros Hk. unfold call_handle_error_message.
  now rewrite (proj2 Hiff Hk).
Qed.

Lemma win_create_muc_handler_witness :
  let muc := fun (w : ProfWin) (_ _ : string) => (true, w) in
  let w := win_create 1 2 3 4 5 1000 "room@conference.example.org" 80 3 in
  NoDup [1; 2; 3; 4; 5] /\
  call_handle_error_message muc w "room@conference.example.org" "conflict"
  = (true, w).
Proof.
  intros muc w.
  assert (H : NoDup [1; 2; 3; 4; 5]).
  { repeat constructor; simpl; intuition discriminate. }
  split; [exact H|].
  exact (proj2 (win_create_muc_handler 1 2 3 4 5 1000 muc
                  "room@conference.example.org" 80 3
                  "room@conference.example.org" "conflict" H) eq_refl).
Defined.

(* ================================================================= *)
(** ** The tray *)

Import Tray.

(** C8. What the code does when no icon can be found. The build defines
    no ICONS_PATH and the icon directory of the user does not exist:
    _get_icons returns with both file names still NULL and nothing
    logged, and create_tray then reads [icon_filename->str] through the
    NULL pointer. When the directory exists and cannot be opened the
    failure is logged, and the same read follows. When the directory
    holds proIcon.png alone, the tray is created and the first tick with
    unread messages reads [icon_msg_filename->str] through NULL. *)
Theorem create_tray_without_icons_crashes :
  let absent :=
    {| ICONS_PATH := None; xdg_config_home := "/home/user/.config";
       is_dir := fun _ => false;
       dir_open := fun _ => inr "No such file or directory" |} in
  let unreadable :=
    {| ICONS_PATH := None; xdg_config_home := "/home/user/.config";
       is_dir := fun _ => true;
       dir_open := fun _ => inr "Permission denied" |} in
  let one_icon :=
    {| ICONS_PATH := None; xdg_config_home := "/home/user/.config";
       is_dir := fun _ => true;
       dir_open := fun _ => inl ["proIcon.png"] |} in
  _get_icons absent initial = Ok tt initial [] /\
  create_tray absent 1 initial = Crash [] /\
  create_tray unreadable 1 initial
  = Crash [Ev_stderr ("Unable to open dir: Permission denied" ++ nl);
           Ev_glib_critical "g_dir_close"] /\
  (create_tray one_icon 1 >> _tray_change_icon 2) initial
  = Crash [Ev_glib_critical "g_string_free";
           Ev_gtk_status_icon_new_from_file
             "/home/user/.config/profanity/icons/proIcon.png";
           Ev_g_timeout_add 5000;
           Ev_wins_get_total_unread].
Proof. repeat split; vm_compute; reflexivity. Qed.

Lemma _tray_change_icon_shutting_down (g : globals) (u : Z) :
  shutting_down g = true -> _tray_change_icon u g = Ok false g [].
Proof.
  intros Hsd. unfold _tray_change_icon, bind, get. now rewrite Hsd.
Qed.

Lemma ticks_shutting_down (g : globals) (unreads : list Z) :
  shutting_down g = true ->
  ticks unreads g = Ok (repeat false (List.length unreads)) g [].
Proof.
  intros Hsd. induction unreads as [|u rest IH]; [reflexivity|].
  simpl. unfold bind at 1.
  rewrite (_tray_change_icon_shutting_down g u Hsd).
  unfold bind at 1. rewrite IH. reflexivity.
Qed.

Lemma destroy_tray_sets_flag (g g' : globals) (log : list event) :
  destroy_tray g = Ok tt g' log -> shutting_down g' = true.
Proof.
  destruct g as [pt a b u sd t].
  destruct pt as [f|]; destruct a as [|sa|]; destruct b as [|sb|];
    cbv; intros H; inversion H; reflexivity.
Qed.

Lemma destroy_tray_live (g : globals) (f a b : string) :
  prof_tray g = Some f ->
  icon_filename g = GLive a ->
  icon_msg_filename g = GLive b ->
  destroy_tray g
  = Ok tt
      {| prof_tray := None; icon_filename := GDangling;
         icon_msg_filename := GDangling;
         unread_messages := unread_messages g;
         shutting_down := true; timer := timer g |}
      [Ev_g_source_remove (timer g); Ev_gtk_widget_destroy;
       Ev_g_string_free Res_icon_filename;
       Ev_g_string_free Res_icon_msg_filename].
Proof.
  destruct g as [pt fa fb u sd t]. simpl. intros -> -> ->. reflexivity.
Qed.

(** C9. A tick checks the shutdown flag before anything else: with the
    flag set it asks for no unread count, touches no icon, changes no
    variable and returns FALSE, the value that ends a GLib timer.
    destroy_tray sets the flag, so every tick after it, however many,
    does nothing. From a created tray, destroy_tray followed by any
    ticks removes the timer, destroys the icon and frees each file name
    exactly once, and that is all that happens. *)
Theorem tick_after_destroy_tray_is_noop :
  forall (g : globals) (unreads : list Z),
    (shutting_down g = true ->
     forall u, _tray_change_icon u g = Ok false g []) /\
    (forall g' log,
       destroy_tray g = Ok tt g' log ->
       shutting_down g' = true /\
       ticks unreads g' = Ok (repeat false (List.length unreads)) g' []) /\
    (forall f a b,
       prof_tray g = Some f ->
       icon_filename g = GLive a ->
       icon_msg_filename g = GLive b ->
       exists g',
         (destroy_tray >> ticks unreads) g
         = Ok (repeat false (List.length unreads)) g'
             [Ev_g_source_remove (timer g); Ev_gtk_widget_destroy;
              Ev_g_string_free Res_icon_filename;
              Ev_g_string_free Res_icon_msg_filename] /\
         prof_tray g' = None /\ shutting_down g' = true).
Proof.
  intros g unreads. split; [|split].
  - intros Hsd u. now apply _tray_change_icon_shutting_down.
  - intros g' log Hd.
    pose proof (destroy_tray_sets_flag g g' log Hd) as Hsd.
    split; [exact Hsd | now apply ticks_shutting_down].
  - intros f a b Hpt Ha Hb.
    eexists. unfold bind.
    rewrite (destroy_tray_live g f a b Hpt Ha Hb).
    rewrite ticks_shutting_down by reflexivity.
    split; [reflexivity | split; reflexivity].
Qed.

Lemma tick_after_destroy_tray_is_noop_witness :
  let e :=
    {| ICONS_PATH := Some "/usr/share/profanity/icons";
       xdg_config_home := "/home/user/.config";
       is_dir := fun _ => false;
       dir_open := fun _ => inl [] |} in
  let g :=
    {| prof_tray := Some "/usr/share/profanity/icons/proIcon.png";
       icon_filename := GLive "/usr/share/profanity/icons/proIcon.png";
       icon_msg_filename := GLive "/usr/share/profanity/icons/proIconMsg.png";
       unread_messages := 0; shutting_down := false; timer := 7 |} in
  create_tray e 7 initial
  = Ok tt g [Ev_gtk_status_icon_new_from_file
               "/usr/share/profanity/icons/proIcon.png";
             Ev_g_timeout_add 5000] /\
  exists g',
    (destroy_tray >> ticks [3; 0]) g
    = Ok [false; false] g'
        [Ev_g_source_remove 7; Ev_gtk_widget_destroy;
         Ev_g_string_free Res_icon_filename;
         Ev_g_string_free Res_icon_msg_filename].
Proof.
  intros e g. split; [vm_compute; reflexivity|].
  destruct (proj2 (proj2 (tick_after_destroy_tray_is_noop g [3; 0]))
              _ _ _ eq_refl eq_refl eq_refl) as (g' & Hrun & _).
  exists g'. exact Hrun.
Defined.

(* ================================================================= *)
(** ** Further properties of the tray *)

Lemma with_icons_same (g : globals) :
  with_icons g (icon_filename g) (icon_msg_filename g) = g.
Proof. destruct g; reflexivity. Qed.

Lemma replace_icon_filename (g : globals) (s : string) :
  icon_filename g <> GDangling ->
  exists log,
    (g_string_free Res_icon_filename >> set_icon_filename (GLive s)) g
    = Ok tt (with_icons g (GLive s) (icon_msg_filename g)) log.
Proof.
  intros Hnd. destruct g as [pt a b u sd t]. cbn [icon_filename] in Hnd.
  destruct a as [|sa|]; [| |now elim Hnd]; eexists; reflexivity.
Qed.

Lemma replace_icon_msg_filename (g : globals) (s : string) :
  icon_msg_filename g <> GDangling ->
  exists log,
    (g_string_free Res_icon_msg_filename >> set_icon_msg_filename (GLive s)) g
    = Ok tt (with_icons g (icon_filename g) (GLive s)) log.
Proof.
  intros Hnd. destruct g as [pt a b u sd t]. cbn [icon_msg_filename] in Hnd.
  destruct b as [|sb|]; [| |now elim Hnd]; eexists; reflexivity.
Qed.

Lemma scan_icons_resolves (dir : string) (entries : list string) :
  forall g : globals,
    icon_filename g <> GDangling ->
    icon_msg_filename g <> GDangling ->
    (forall n, In n entries -> n <> "") ->
    exists log,
      scan_icons dir entries g
      = Ok tt
          (with_icons g
             (if existsb (String.eqb "proIcon.png") entries
              then GLive (dir ++ "/proIcon.png") else icon_filename g)
             (if existsb (String.eqb "proIconMsg.png") entries
              then GLive (dir ++ "/proIconMsg.png")
              else icon_msg_filename g))
          log.
Proof.
  induction entries as [|name rest IH]; intros g Ha Hb Hne.
  - exists []. simpl. now rewrite with_icons_same.
  - cbn [scan_icons existsb].
    assert (Hname : name <> "") by (apply Hne; now left).
    assert (Hrest : forall n, In n rest -> n <> "")
      by (intros n Hn; apply Hne; now right).
    destruct name as [|c name']; [now elim Hname|].
    cbn [String.length Nat.eqb].
    rewrite !g_strcmp0_eqb.
    destruct (String.eqb_spec "proIcon.png" (String c name')) as [E|NE].
    + destruct (replace_icon_filename g (dir ++ "/proIcon.png") Ha)
        as [log1 H1].
      rewrite <- E. cbn [orb].
      replace ("proIconMsg.png" =? "proIcon.png")%string with false
        by reflexivity.
      cbn [orb].
      destruct (IH (with_icons g (GLive (dir ++ "/proIcon.png"))
                      (icon_msg_filename g)))
        as [log2 H2]; [discriminate | exact Hb | exact Hrest |].
      exists (log1 ++ log2)%list.
      unfold bind at 1. rewrite H1. rewrite H2.
      cbn [with_icons icon_filename icon_msg_filename prof_tray
           unread_messages shutting_down timer].
      destruct (existsb (String.eqb "proIcon.png") rest); reflexivity.
    + cbn [orb].
      destruct (String.eqb_spec "proIconMsg.png" (String c name')) as [E|NE2].
      * destruct (replace_icon_msg_filename g (dir ++ "/proIconMsg.png") Hb)
          as [log1 H1].
        cbn [orb].
        destruct (IH (with_icons g (icon_filename g)
                        (GLive (dir ++ "/proIconMsg.png"))))
          as [log2 H2]; [exact Ha | discriminate | exact Hrest |].
        exists (log1 ++ log2)%list.
        unfold bind at 1. rewrite H1. rewrite H2.
        cbn [with_icons icon_filename icon_msg_filename prof_tray
             unread_messages shutting_down timer].
        destruct (existsb (String.eqb "proIconMsg.png") rest); reflexivity.
      * cbn [orb].
        destruct (IH g Ha Hb Hrest) as [log2 H2].
        exists log2. unfold bind at 1. unfold ret at 1. rewrite H2.
        reflexivity.
Qed.

Lemma scan_icons_live (dir : string) (entries : list string) :
  forall (g : globals) (a b : string),
    icon_filename g = GLive a ->
    icon_msg_filename g = GLive b ->
    exists a' b' log,
      scan_icons dir entries g
      = Ok tt (with_icons g (GLive a') (GLive b')) log /\
      (a' = a \/ a' = dir ++ "/proIcon.png") /\
      (b' = b \/ b' = dir ++ "/proIconMsg.png").
Proof.
  induction entries as [|name rest IH]; intros g a b Ha Hb.
  - exists a, b, []. simpl. rewrite <- Ha, <- Hb, with_icons_same. auto.
  - cbn [scan_icons].
    destruct (String.length name =? 0)%nat.
    + exists a, b, []. unfold ret. rewrite <- Ha, <- Hb, with_icons_same. auto.
    + rewrite !g_strcmp0_eqb.
      destruct ("proIcon.png" =? name)%string.
      * destruct (replace_icon_filename g (dir ++ "/proIcon.png"))
          as [log1 H1]; [rewrite Ha; discriminate|].
        destruct (IH (with_icons g (GLive (dir ++ "/proIcon.png"))
                        (icon_msg_filename g))
                    (dir ++ "/proIcon.png") b eq_refl Hb)
          as (a' & b' & log2 & H2 & Ha' & Hb').
        exists a', b', (log1 ++ log2)%list.
        unfold bind at 1. rewrite H1, H2.
        split; [reflexivity|]. split; [|exact Hb'].
        right. destruct Ha' as [->| ->]; reflexivity.
      * destruct ("proIconMsg.png" =? name)%string.
        -- destruct (replace_icon_msg_filename g (dir ++ "/proIconMsg.png"))
             as [log1 H1]; [rewrite Hb; discriminate|].
           destruct (IH (with_icons g (icon_filename g)
                           (GLive (dir ++ "/proIconMsg.png")))
                       a (dir ++ "/proIconMsg.png") Ha eq_refl)
             as (a' & b' & log2 & H2 & Ha' & Hb').
           exists a', b', (log1 ++ log2)%list.
           unfold bind at 1. rewrite H1, H2.
           split; [reflexivity|]. split; [exact Ha'|].
           right. destruct Hb' as [->| ->]; reflexivity.
        -- destruct (IH g a b Ha Hb) as (a' & b' & log2 & H2 & Ha' & Hb').
           exists a', b', log2.
           unfold bind at 1. unfold ret at 1. rewrite H2. auto.
Qed.

(** X12. Which icon files _get_icons settles on, from variables that
    do not dangle. When the icon directory of the user is no directory,
    or cannot be opened (which is logged to stderr), each file name is
    the one under ICONS_PATH, or stays as it was in a build without
    ICONS_PATH. When the directory is read, a file name is the one in
    that directory exactly when the directory lists the icon, whatever
    ICONS_PATH says and wherever in the listing the icon stands; every
    other entry is ignored; the other variables are not touched. *)
Theorem get_icons_resolution :
  forall (e : env) (g : globals),
    (ICONS_PATH e = None ->
     icon_filename g <> GDangling /\ icon_msg_filename g <> GDangling) ->
    let dir := xdg_config_home e ++ "/profanity/icons" in
    let settled := fun entries =>
      with_icons g
        (resolved_icon e "proIcon.png" entries (icon_filename g))
        (resolved_icon e "proIconMsg.png" entries (icon_msg_filename g)) in
    (is_dir e dir = false -> _get_icons e g = Ok tt (settled []) []) /\
    (forall message,
       is_dir e dir = true -> dir_open e dir = inr message ->
       _get_icons e g
       = Ok tt (settled [])
           [Ev_stderr ("Unable to open dir: " ++ message ++ nl);
            Ev_glib_critical "g_dir_close"]) /\
    (forall entries,
       is_dir e dir = true -> dir_open e dir = inl entries ->
       (forall n, In n entries -> n <> "") ->
       exists log, _get_icons e g = Ok tt (settled entries) log).
Proof.
  intros e g Hnd dir settled.
  destruct e as [ip xdg isd dop]. cbn [ICONS_PATH xdg_config_home is_dir dir_open] in *.
  subst settled. unfold resolved_icon. cbn [existsb ICONS_PATH xdg_config_home].
  destruct g as [pt a b u sd t].
  cbn [icon_filename icon_msg_filename] in *.
  split; [|split].
  - intros Hdir. unfold _get_icons. cbn [ICONS_PATH xdg_config_home is_dir dir_open].
    fold dir. rewrite Hdir.
    destruct ip as [path|]; reflexivity.
  - intros message Hdir Hopen. unfold _get_icons.
    cbn [ICONS_PATH xdg_config_home is_dir dir_open].
    fold dir. rewrite Hdir, Hopen.
    destruct ip as [path|]; reflexivity.
  - intros entries Hdir Hopen Hne. unfold _get_icons.
    cbn [ICONS_PATH xdg_config_home is_dir dir_open].
    fold dir. rewrite Hdir, Hopen. cbn [negb].
    replace (xdg ++ "/profanity/icons" ++ "/" ++ "proIcon.png")
      with (dir ++ "/proIcon.png")
      by (subst dir; now rewrite string_app_assoc).
    replace (xdg ++ "/profanity/icons" ++ "/" ++ "proIconMsg.png")
      with (dir ++ "/proIconMsg.png")
      by (subst dir; now rewrite string_app_assoc).
    destruct ip as [path|].
    + destruct (scan_icons_resolves dir entries
                  {| prof_tray := pt;
                     icon_filename := GLive (path ++ "/proIcon.png");
                     icon_msg_filename := GLive (path ++ "/proIconMsg.png");
                     unread_messages := u; shutting_down := sd; timer := t |})
        as [log Hscan]; [discriminate | discriminate | exact Hne |].
      exists log. unfold bind at 1.
      match goal with
      | |- match ?m with _ => _ end = _ =>
          replace m with
            (Ok tt {| prof_tray := pt;
                      icon_filename := GLive (path ++ "/proIcon.png");
                      icon_msg_filename := GLive (path ++ "/proIconMsg.png");
                      unread_messages := u; shutting_down := sd; timer := t |}
               []) by reflexivity
      end.
      rewrite Hscan. reflexivity.
    + destruct (Hnd eq_refl) as [Ha Hb].
      destruct (scan_icons_resolves dir entries
                  {| prof_tray := pt; icon_filename := a;
                     icon_msg_filename := b;
                     unread_messages := u; shutting_down := sd; timer := t |})
        as [log Hscan]; [exact Ha | exact Hb | exact Hne |].
      exists log. unfold bind at 1. unfold ret at 1.
      rewrite Hscan. reflexivity.
Qed.

Lemma get_icons_resolution_witness :
  let e :=
    {| ICONS_PATH := Some "/usr/share/profanity/icons";
       xdg_config_home := "/home/user/.config";
       is_dir := fun _ => true;
       dir_open := fun _ => inl ["README"; "proIconMsg.png"] |} in
  (ICONS_PATH e = None ->
   icon_filename initial <> GDangling /\
   icon_msg_filename initial <> GDangling) /\
  (forall n, In n ["README"; "proIconMsg.png"] -> n <> "") /\
  exists log,
    _get_icons e initial
    = Ok tt
        (with_icons initial
           (GLive "/usr/share/profanity/icons/proIcon.png")
           (GLive "/home/user/.config/profanity/icons/proIconMsg.png"))
        log.
Proof.
  intros e.
  assert (H1 : ICONS_PATH e = None ->
               icon_filename initial <> GDangling /\
               icon_msg_filename initial <> GDangling)
    by (intros _; split; discriminate).
  assert (H2 : forall n, In n ["README"; "proIconMsg.png"] -> n <> "")
    by (intros n [<-|[<-|[]]]; discriminate).
  split; [exact H1|]. split; [exact H2|].
  exact (proj2 (proj2 (get_icons_resolution e initial H1))
           ["README"; "proIconMsg.png"] eq_refl eq_refl H2).
Defined.

(** create_tray in a build with ICONS_PATH. *)
Lemma create_tray_runs :
  forall (e : env) (path : string) (timer_id : Z) (g : globals),
    ICONS_PATH e = Some path ->
    let dir := xdg_config_home e ++ "/profanity/icons" in
    exists a b log,
      create_tray e timer_id g
      = Ok tt
          {| prof_tray := Some a;
             icon_filename := GLive a;
             icon_msg_filename := GLive b;
             unread_messages := unread_messages g;
             shutting_down := false;
             timer := timer_id |}
          log /\
      (a = path ++ "/proIcon.png" \/ a = dir ++ "/proIcon.png") /\
      (b = path ++ "/proIconMsg.png" \/ b = dir ++ "/proIconMsg.png").
Proof.
  intros e path timer_id g Hpath dir.
  destruct e as [ip xdg isd dop].
  cbn [ICONS_PATH xdg_config_home] in *. subst ip.
  destruct g as [pt a0 b0 u sd t].
  unfold create_tray, _get_icons.
  cbn [ICONS_PATH xdg_config_home is_dir dir_open unread_messages].
  fold dir.
  set (g1 := {| prof_tray := pt;
                icon_filename := GLive (path ++ "/proIcon.png");
                icon_msg_filename := GLive (path ++ "/proIconMsg.png");
                unread_messages := u; shutting_down := sd; timer := t |}).
  destruct (isd dir) eqn:Hdir; cbn [negb].
  - destruct (dop dir) as [entries|message] eqn:Hopen.
    + destruct (scan_icons_live dir entries g1 _ _ eq_refl eq_refl)
        as (a' & b' & log & Hscan & Ha' & Hb').
      exists a', b'. eexists.
      split; [|split; [exact Ha' | exact Hb']].
      unfold bind at 1. unfold bind at 1.
      match goal with
      | |- context [match ?m with Ok _ _ _ => _ | Crash _ => _ end] =>
          replace m with (Ok tt g1 []) by reflexivity
      end.
      rewrite Hscan. reflexivity.
    + exists (path ++ "/proIcon.png"), (path ++ "/proIconMsg.png").
      eexists. split; [reflexivity | auto].
  - exists (path ++ "/proIcon.png"), (path ++ "/proIconMsg.png").
    eexists. split; [reflexivity | auto].
Qed.

Lemma _tray_change_icon_live (g : globals) (f a b : string) (u : Z) :
  prof_tray g = Some f ->
  icon_filename g = GLive a ->
  icon_msg_filename g = GLive b ->
  shutting_down g = false ->
  _tray_change_icon u g
  = Ok true
      {| prof_tray := Some (if u =? 0 then a else b);
         icon_filename := GLive a;
         icon_msg_filename := GLive b;
         unread_messages := u;
         shutting_down := false;
         timer := timer g |}
      (tick_events a b u).
Proof.
  destruct g as [pt fa fb un sd t]. cbn. intros -> -> -> ->.
  unfold _tray_change_icon, tick_events. cbn.
  destruct (u =? 0); reflexivity.
Qed.

Lemma last_cons_default (A : Type) (x : A) (l : list A) (d d' : A) :
  last (x :: l) d = last (x :: l) d'.
Proof.
  revert x. induction l as [|y l IH]; intros x; [reflexivity|].
  change (last (y :: l) d = last (y :: l) d'). apply IH.
Qed.

(** Any number of ticks of a tray that is not shutting down. *)
Lemma ticks_run :
  forall (unreads : list Z) (g : globals) (f a b : string),
    prof_tray g = Some f ->
    icon_filename g = GLive a ->
    icon_msg_filename g = GLive b ->
    shutting_down g = false ->
    ticks unreads g
    = Ok (repeat true (List.length unreads))
        {| prof_tray :=
             Some (match unreads with
                   | [] => f
                   | _ => if last unreads 0 =? 0 then a else b
                   end);
           icon_filename := GLive a;
           icon_msg_filename := GLive b;
           unread_messages := last unreads (unread_messages g);
           shutting_down := false;
           timer := timer g |}
        (flat_map (tick_events a b) unreads).
Proof.
  induction unreads as [|u rest IH]; intros g f a b Hpt Ha Hb Hsd.
  - destruct g; cbn in *. subst. reflexivity.
  - cbn [ticks]. unfold bind at 1.
    rewrite (_tray_change_icon_live g f a b u Hpt Ha Hb Hsd).
    unfold bind at 1.
    set (g1 := {| prof_tray := Some (if u =? 0 then a else b);
                  icon_filename := GLive a;
                  icon_msg_filename := GLive b;
                  unread_messages := u;
                  shutting_down := false;
                  timer := timer g |}).
    rewrite (IH g1 (if u =? 0 then a else b) a b
               eq_refl eq_refl eq_refl eq_refl).
    subst g1.
    cbn [unread_messages timer List.length repeat flat_map app].
    unfold ret. cbn [app].
    rewrite app_nil_r.
    destruct rest as [|u' rest']; [reflexivity|].
    change (last (u :: u' :: rest') 0) with (last (u' :: rest') 0).
    change (last (u :: u' :: rest') (unread_messages g))
      with (last (u' :: rest') (unread_messages g)).
    now rewrite (last_cons_default Z u' rest' (unread_messages g) u).
Qed.

(** X13. In a build that defines ICONS_PATH, create_tray succeeds from
    any state of the variables, a tray destroyed before included, and
    whatever the icon directory of the user is (absent, unreadable, or
    listing anything): both file names are live strings, each the one
    under ICONS_PATH or the one in the directory of the user, the status
    icon shows the first, the shutdown flag is cleared and the timer id
    is kept. *)
Theorem create_tray_with_icons_path :
  forall (e : env) (path : string) (timer_id : Z) (g : globals),
    ICONS_PATH e = Some path ->
    let dir := xdg_config_home e ++ "/profanity/icons" in
    exists a b log,
      create_tray e timer_id g
      = Ok tt
          {| prof_tray := Some a;
             icon_filename := GLive a;
             icon_msg_filename := GLive b;
             unread_messages := unread_messages g;
             shutting_down := false;
             timer := timer_id |}
          log /\
      (a = path ++ "/proIcon.png" \/ a = dir ++ "/proIcon.png") /\
      (b = path ++ "/proIconMsg.png" \/ b = dir ++ "/proIconMsg.png").
Proof.
  intros e path timer_id g Hpath. exact (create_tray_runs e path timer_id g Hpath).
Qed.

Lemma create_tray_with_icons_path_witness :
  let e :=
    {| ICONS_PATH := Some "/usr/share/profanity/icons";
       xdg_config_home := "/home/user/.config";
       is_dir := fun _ => true;
       dir_open := fun _ => inr "Permission denied" |} in
  let g :=
    {| prof_tray := None; icon_filename := GDangling;
       icon_msg_filename := GDangling; unread_messages := 4;
       shutting_down := true; timer := 7 |} in
  ICONS_PATH e = Some "/usr/share/profanity/icons" /\
  exists a b log,
    create_tray e 8 g
    = Ok tt
        {| prof_tray := Some a; icon_filename := GLive a;
           icon_msg_filename := GLive b; unread_messages := 4;
           shutting_down := false; timer := 8 |}
        log.
Proof.
  intros e g.
  assert (H : ICONS_PATH e = Some "/usr/share/profanity/icons")
    by reflexivity.
  split; [exact H|].
  destruct (create_tray_with_icons_path
              e "/usr/share/profanity/icons" 8 g H)
    as (a & b & log & Hrun & _).
  exists a, b, log. exact Hrun.
Defined.

(** X14. While the tray runs (icon created, both file names live, not
    shutting down), every tick asks for the unread count once, shows the
    message icon when the count is not zero and the plain icon when it
    is, and returns TRUE. After any number of ticks the icon shown and
    the count kept are those of the last tick, whatever came before. *)
Theorem ticks_follow_unread_count :
  forall (unreads : list Z) (g : globals) (f a b : string),
    prof_tray g = Some f ->
    icon_filename g = GLive a ->
    icon_msg_filename g = GLive b ->
    shutting_down g = false ->
    ticks unreads g
    = Ok (repeat true (List.length unreads))
        {| prof_tray :=
             Some (match unreads with
                   | [] => f
                   | _ => if last unreads 0 =? 0 then a else b
                   end);
           icon_filename := GLive a;
           icon_msg_filename := GLive b;
           unread_messages := last unreads (unread_messages g);
           shutting_down := false;
           timer := timer g |}
        (flat_map (tick_events a b) unreads).
Proof.
  intros unreads g f a b Hpt Ha Hb Hsd.
  exact (ticks_run unreads g f a b Hpt Ha Hb Hsd).
Qed.

Lemma ticks_follow_unread_count_witness :
  let g :=
    {| prof_tray := Some "icon.png"; icon_filename := GLive "icon.png";
       icon_msg_filename := GLive "msg.png"; unread_messages := 0;
       shutting_down := false; timer := 7 |} in
  prof_tray g = Some "icon.png" /\
  icon_filename g = GLive "icon.png" /\
  icon_msg_filename g = GLive "msg.png" /\
  shutting_down g = false /\
  ticks [0; 2; 5] g
  = Ok [true; true; true]
      {| prof_tray := Some "msg.png"; icon_filename := GLive "icon.png";
         icon_msg_filename := GLive "msg.png"; unread_messages := 5;
         shutting_down := false; timer := 7 |}
      [Ev_wins_get_total_unread;
       Ev_gtk_status_icon_set_from_file "icon.png";
       Ev_wins_get_total_unread;
       Ev_gtk_status_icon_set_from_file "msg.png";
       Ev_wins_get_total_unread;
       Ev_gtk_status_icon_set_from_file "msg.png"].
Proof.
  intros g.
  repeat (split; [reflexivity|]).
  exact (ticks_follow_unread_count [0; 2; 5] g "icon.png" "icon.png"
           "msg.png" eq_refl eq_refl eq_refl eq_refl).
Defined.

(** X15. In a build that defines ICONS_PATH the whole life of the tray
    runs without a crash, from any state and for any unread counts:
    create_tray, any ticks, destroy_tray, and any ticks that still
    arrive. The events are those of the creation, two per tick while the
    tray runs, then one removal of the timer, one destruction of the
    icon and one release of each file name; the late ticks all return
    FALSE and add nothing. *)
Theorem tray_lifecycle_with_icons_path :
  forall (e : env) (path : string) (timer_id : Z) (g : globals)
         (unreads later : list Z),
    ICONS_PATH e = Some path ->
    exists a b log g',
      (exists g1, create_tray e timer_id g = Ok tt g1 log /\
                  icon_filename g1 = GLive a /\
                  icon_msg_filename g1 = GLive b) /\
      (create_tray e timer_id >> ticks unreads >> destroy_tray >> ticks later) g
      = Ok (repeat false (List.length later)) g'
          (log ++ flat_map (tick_events a b) unreads ++
           [Ev_g_source_remove timer_id; Ev_gtk_widget_destroy;
            Ev_g_string_free Res_icon_filename;
            Ev_g_string_free Res_icon_msg_filename])%list /\
      prof_tray g' = None /\ shutting_down g' = true.
Proof.
  intros e path timer_id g unreads later Hpath.
  destruct (create_tray_runs e path timer_id g Hpath)
    as (a & b & log & Hcreate & _ & _).
  exists a, b, log. eexists.
  split; [eexists; split; [exact Hcreate | split; reflexivity]|].
  unfold bind at 1. rewrite Hcreate.
  set (g1 := {| prof_tray := Some a; icon_filename := GLive a;
                icon_msg_filename := GLive b;
                unread_messages := unread_messages g;
                shutting_down := false; timer := timer_id |}).
  unfold bind at 1.
  rewrite (ticks_run unreads g1 a a b
             eq_refl eq_refl eq_refl eq_refl).
  match goal with
  | |- context [(destroy_tray >> ticks later) ?g2] => set (g2' := g2)
  end.
  unfold bind at 1.
  rewrite (destroy_tray_live g2' _ a b eq_refl eq_refl eq_refl).
  rewrite ticks_shutting_down by reflexivity.
  subst g2' g1. cbn [timer]. rewrite app_nil_r.
  split; [reflexivity | split; reflexivity].
Qed.

Lemma tray_lifecycle_with_icons_path_witness :
  let e :=
    {| ICONS_PATH := Some "/usr/share/profanity/icons";
       xdg_config_home := "/home/user/.config";
       is_dir := fun _ => false;
       dir_open := fun _ => inl [] |} in
  ICONS_PATH e = Some "/usr/share/profanity/icons" /\
  exists g' log,
    (create_tray e 7 >> ticks [0; 3] >> destroy_tray >> ticks [1]) initial
    = Ok [false] g' log.
Proof.
  intros e.
  assert (H : ICONS_PATH e = Some "/usr/share/profanity/icons")
    by reflexivity.
  split; [exact H|].
  destruct (tray_lifecycle_with_icons_path
              e "/usr/share/profanity/icons" 7 initial [0; 3] [1] H)
    as (a & b & log & g' & _ & Hrun & _).
  exists g'. eexists. exact Hrun.
Defined.
